(** * Section-binding coordination layer of the requirements platform

    A shallow embedding of the frontend code that coordinates document
    sections, section bindings and presence:

    - [getUserColor]            (lib/liveblocks.ts),
    - the [useDocument] hook    (loadDocument, updateContent, deleteSection,
                                 activateSection, deactivateSection),
    - the [SectionPanel] tree projection (rootSections, getChildren),
    - the presence projections  (CollaborationCursors, useCollaborators).

    Asynchronous backend calls are modelled by explicit state passing: every
    [await api.f(...)] appends the call to a log and continues with the
    response that the environment supplies as an argument of the operation. *)

From Stdlib Require Import ZArith List String Ascii Bool Lia.
From Stdlib Require Import Permutation Sorted.
Import ListNotations.

Open Scope Z_scope.

(* ===================================================================== *)
(** * JavaScript values                                                    *)
(* ===================================================================== *)

Module Js.

(** [ToInt32]: the signed 32-bit reading used by the bit operators. *)
Definition toInt32 (n : Z) : Z := (n + 2 ^ 31) mod 2 ^ 32 - 2 ^ 31.

(** [a << k] for a shift count [0 <= k < 32]. *)
Definition shl (a k : Z) : Z := toInt32 (Z.shiftl (toInt32 a) k).

(** A JavaScript string is a sequence of UTF-16 code units;
    [s.charCodeAt(i)] reads the [i]-th one. *)
Definition codeUnits := list Z.

(** Code units of a string whose characters are all below 256. *)
Fixpoint code_units (s : string) : codeUnits :=
  match s with
  | EmptyString => []
  | String c rest => Z.of_nat (nat_of_ascii c) :: code_units rest
  end.

(** [Error] objects carry a message. *)
Inductive Error := MkError (message : string).

(** What a [catch (err)] clause may receive: an [Error] instance, or any
    other thrown value. *)
Inductive thrown :=
| ErrorObject (e : Error)
| NonError (description : string).

(** [err instanceof Error ? err : new Error(fallback)] *)
Definition asError (err : thrown) (fallback : string) : Error :=
  match err with
  | ErrorObject e => e
  | NonError _ => MkError fallback
  end.

(** Truthiness of an optional string ([undefined], [null] and the empty
    string are falsy). *)
Definition truthy (v : option string) : bool :=
  match v with
  | Some s => negb (s =? EmptyString)%string
  | None => false
  end.

(** [v || d] on an optional string. *)
Definition orElse (v : option string) (d : string) : string :=
  match v with
  | Some s => if (s =? EmptyString)%string then d else s
  | None => d
  end.

(** [a === b] between a nullable string and a string. *)
Definition strictEq (a : option string) (b : string) : bool :=
  match a with
  | Some s => (s =? b)%string
  | None => false
  end.

(** [Array.prototype.sort(cmp)]: the sort is stable, so for a consistent
    comparator its result is the one of a stable insertion sort. *)
Section Sort.
Context {A : Type} (cmp : A -> A -> Z).

Fixpoint insert (x : A) (l : list A) : list A :=
  match l with
  | [] => [x]
  | y :: l' => if cmp x y <=? 0 then x :: y :: l' else y :: insert x l'
  end.

Definition sort (l : list A) : list A := fold_right insert [] l.
End Sort.

End Js.

(* ===================================================================== *)
(** * lib/liveblocks.ts: [getUserColor]                                    *)
(* ===================================================================== *)

Module Liveblocks.

Definition colors : list string :=
  [ "#E57373"; "#81C784"; "#64B5F6"; "#FFD54F";
    "#BA68C8"; "#4DB6AC"; "#FF8A65"; "#A1887F" ]%string.

(** One iteration of the loop body:
    [hash = userId.charCodeAt(i) + ((hash << 5) - hash)].
    The numbers involved are integers; [Z] represents them exactly as long
    as they stay below 2^53 in absolute value (see [hash_of_bound]). *)
Definition hash_step (hash : Z) (c : Z) : Z := c + (Js.shl hash 5 - hash).

(** The whole loop, from [hash = 0]. *)
Definition hash_of (userId : Js.codeUnits) : Z := fold_left hash_step userId 0.

(** [colors[Math.abs(hash) % colors.length]]; [None] stands for the
    [undefined] of an out-of-range index. *)
Definition getUserColor (userId : Js.codeUnits) : option string :=
  nth_error colors
    (Z.to_nat (Z.abs (hash_of userId) mod Z.of_nat (List.length colors))).

End Liveblocks.

(* ===================================================================== *)
(** * types: sections, bindings, documents                                *)
(* ===================================================================== *)

Inductive SectionStatus := empty | draft | needs_review | approved | disputed.

Inductive BindingType := discussion | editing | reference | question | approval.

(** [interface Section]. Optional members are options; [order] is the
    integer sibling position. *)
Module Sec.
Record t := mk {
  id : string;
  document_id : string;
  section_number : string;
  title : string;
  parent_id : option string;
  order : Z;
  status : SectionStatus;
  content_preview : option string;
  ai_generated : bool
}.
End Sec.

(** [interface SectionBinding]. *)
Module Binding.
Record t := mk {
  id : string;
  section_id : string;
  message_id : option string;
  binding_type : BindingType;
  created_by_id : option string;
  is_ai_generated : bool;
  is_active : bool;
  note : option string;
  created_at : string;
  deactivated_at : option string
}.

(** [{ ...b, is_active: false }] *)
Definition set_inactive (b : t) : t :=
  mk (id b) (section_id b) (message_id b) (binding_type b) (created_by_id b)
     (is_ai_generated b) false (note b) (created_at b) (deactivated_at b).
End Binding.

(** [interface DocumentWithContent]; the content is an opaque blob. *)
Module Doc.
Definition content_t := string.

Record t := mk {
  id : string;
  title : string;
  current_version : Z;
  content : option content_t
}.

(** [{ ...prev, content }] *)
Definition with_content (d : t) (c : content_t) : t :=
  mk (id d) (title d) (current_version d) (Some c).
End Doc.

(* ===================================================================== *)
(** * Hook state, backend calls and the execution monad                    *)
(* ===================================================================== *)

(** The six [useState] cells of [useDocument]. *)
Record HookState := mkState {
  document : option Doc.t;
  sections : list Sec.t;
  activeBindings : list Binding.t;
  activeSectionId : option string;
  isLoading : bool;
  error : option Js.Error
}.

(** Initial values of the [useState] cells. *)
Definition initialState : HookState :=
  mkState None [] [] None true None.

(** The backend requests the hook can issue (methods of [api]). *)
Inductive ApiCall :=
| GetDocument (documentId : string)
| ListSections (documentId : string)
| GetActiveBindings (documentId : string)
| UpdateDocument (documentId : string) (content : Doc.content_t)
| DeleteSection (documentId sectionId : string)
| CreateSectionBinding (documentId sectionId : string)
    (binding_type : BindingType) (message_id : option string)
| UpdateSectionBinding (documentId bindingId : string) (is_active : bool).

(** Externally visible effects, in the order they happen. *)
Inductive Event :=
| Called (c : ApiCall)
| OnError (e : Js.Error).

(** What a backend call settles to: rejected with a thrown value, or
    fulfilled. *)
Definition response (A : Type) : Type := Js.thrown + A.

Record World := mkWorld {
  state : HookState;
  log : list Event
}.

(** A computation of the hook: it transforms the state cells and the event
    log, and either throws or returns. *)
Definition hook (A : Type) : Type := World -> World * (Js.thrown + A).

Definition ret {A} (a : A) : hook A := fun w => (w, inr a).

Definition bind {A B} (m : hook A) (k : A -> hook B) : hook B :=
  fun w =>
    match m w with
    | (w', inr a) => k a w'
    | (w', inl err) => (w', inl err)
    end.

Definition throw {A} (err : Js.thrown) : hook A := fun w => (w, inl err).

(** [try { body } catch (err) { handler }] *)
Definition try_catch {A} (body : hook A) (handler : Js.thrown -> hook A) : hook A :=
  fun w =>
    match body w with
    | (w', inr a) => (w', inr a)
    | (w', inl err) => handler err w'
    end.

(** [... finally { cleanup }]: the cleanup runs on both exits; the outcome
    of the body stands unless the cleanup itself throws. *)
Definition finally {A} (body : hook A) (cleanup : hook unit) : hook A :=
  fun w =>
    let '(w', r) := body w in
    match cleanup w' with
    | (w'', inr _) => (w'', r)
    | (w'', inl err) => (w'', inl err)
    end.

Declare Scope hook_scope.
Delimit Scope hook_scope with hook.
Notation "x <- m ;; k" := (bind m (fun x => k))
  (at level 100, m at next level, right associativity) : hook_scope.
Notation "m ;; k" := (bind m (fun _ => k))
  (at level 100, right associativity) : hook_scope.

Definition emit (e : Event) : hook unit :=
  fun w => (mkWorld (state w) (log w ++ [e]), inr tt).

(** [await api.f(...)]: the request goes out, then the caller resumes with
    the settled response. *)
Definition await {A} (c : ApiCall) (r : response A) : hook A :=
  fun w => (mkWorld (state w) (log w ++ [Called c]), r).

Definition modify (f : HookState -> HookState) : hook unit :=
  fun w => (mkWorld (f (state w)) (log w), inr tt).

(** State setters. A setter given a function applies it to the latest
    value of its cell. *)
Definition setDocument (f : option Doc.t -> option Doc.t) : hook unit :=
  modify (fun s => mkState (f (document s)) (sections s) (activeBindings s)
                           (activeSectionId s) (isLoading s) (error s)).

Definition setSections (f : list Sec.t -> list Sec.t) : hook unit :=
  modify (fun s => mkState (document s) (f (sections s)) (activeBindings s)
                           (activeSectionId s) (isLoading s) (error s)).

Definition setActiveBindings (f : list Binding.t -> list Binding.t) : hook unit :=
  modify (fun s => mkState (document s) (sections s) (f (activeBindings s))
                           (activeSectionId s) (isLoading s) (error s)).

Definition setActiveSectionId (v : option string) : hook unit :=
  modify (fun s => mkState (document s) (sections s) (activeBindings s)
                           v (isLoading s) (error s)).

Definition setIsLoading (v : bool) : hook unit :=
  modify (fun s => mkState (document s) (sections s) (activeBindings s)
                           (activeSectionId s) v (error s)).

Definition setError (v : option Js.Error) : hook unit :=
  modify (fun s => mkState (document s) (sections s) (activeBindings s)
                           (activeSectionId s) (isLoading s) v).

(** [await Promise.all([a, b, c])]: the three requests go out together, in
    the order written; the result is the triple of values when all are
    fulfilled, and a rejection as soon as one is rejected. Which rejection
    reason wins depends on settling times; the model takes the first in
    argument order. *)
Definition promise_all3 {A B C}
    (ca : ApiCall) (ra : response A)
    (cb : ApiCall) (rb : response B)
    (cc : ApiCall) (rc : response C) : hook (A * B * C) :=
  fun w =>
    (mkWorld (state w) (log w ++ [Called ca; Called cb; Called cc]),
     match ra, rb, rc with
     | inr a, inr b, inr c => inr (a, b, c)
     | inl err, _, _ => inl err
     | _, inl err, _ => inl err
     | _, _, inl err => inl err
     end).

(** Runs a computation from a given state with an empty log. *)
Definition run {A} (m : hook A) (s : HookState) : World * (Js.thrown + A) :=
  m (mkWorld s []).

(** The backend requests of a log, in order. *)
Definition calls (l : list Event) : list ApiCall :=
  flat_map (fun e => match e with Called c => [c] | OnError _ => [] end) l.

(** The errors handed to [onError], in order. *)
Definition reported (l : list Event) : list Js.Error :=
  flat_map (fun e => match e with OnError x => [x] | Called _ => [] end) l.

(* ===================================================================== *)
(** * The [useDocument] hook                                               *)
(* ===================================================================== *)

Module UseDocument.

(** [interface UseDocumentOptions]; [onError] is optional. *)
Record Options := mkOptions {
  documentId : string;
  onError : bool   (* whether the optional callback was supplied *)
}.

(** [onError?.(error)] *)
Definition onError_opt (opts : Options) (e : Js.Error) : hook unit :=
  if onError opts then emit (OnError e) else ret tt.

Section Hook.
Variable opts : Options.

Local Open Scope hook_scope.

Definition loadDocument
    (r_doc : response Doc.t)
    (r_sections : response (list Sec.t))
    (r_bindings : response (list Binding.t)) : hook unit :=
  finally
    (try_catch
       (setIsLoading true ;;
        fetched <- promise_all3
                     (GetDocument (documentId opts)) r_doc
                     (ListSections (documentId opts)) r_sections
                     (GetActiveBindings (documentId opts)) r_bindings ;;
        let '(doc, sectionList, bindings) := fetched in
        setDocument (fun _ => Some doc) ;;
        setSections (fun _ => sectionList) ;;
        setActiveBindings (fun _ => bindings) ;;
        setError None)
       (fun err =>
          let error := Js.asError err "Failed to load document" in
          setError (Some error) ;;
          onError_opt opts error))
    (setIsLoading false).

Definition updateContent
    (content : Doc.content_t) (r_update : response Doc.t) : hook Doc.t :=
  try_catch
    (updated <- await (UpdateDocument (documentId opts) content) r_update ;;
     setDocument (fun prev =>
                    match prev with
                    | Some d => Some (Doc.with_content d content)
                    | None => None
                    end) ;;
     ret updated)
    (fun err =>
       let error := Js.asError err "Failed to update document" in
       onError_opt opts error ;;
       throw (Js.ErrorObject error)).

(** The callbacks below close over the state cells of the render that
    created them: [render] holds those values, while setters given a
    function see the latest state. *)

Definition deleteSection (render : HookState)
    (sectionId : string) (r_delete : response unit) : hook unit :=
  try_catch
    (await (DeleteSection (documentId opts) sectionId) r_delete ;;
     setSections (filter (fun s => negb (Sec.id s =? sectionId)%string)) ;;
     if Js.strictEq (activeSectionId render) sectionId
     then setActiveSectionId None
     else ret tt)
    (fun err =>
       let error := Js.asError err "Failed to delete section" in
       onError_opt opts error ;;
       throw (Js.ErrorObject error)).

Definition activateSection (render : HookState)
    (sectionId : string) (bindingType : option BindingType)
    (messageId : option string)
    (r_deactivate r_create : response Binding.t) : hook Binding.t :=
  let bindingType :=
    match bindingType with Some t => t | None => discussion end in
  try_catch
    (let currentBinding :=
       find (fun b => Js.strictEq (activeSectionId render) (Binding.section_id b)
                      && Binding.is_active b)
            (activeBindings render) in
     match currentBinding with
     | Some cb =>
         _ <- await (UpdateSectionBinding (documentId opts) (Binding.id cb) false)
                    r_deactivate ;;
         ret tt
     | None => ret tt
     end ;;
     binding <- await (CreateSectionBinding (documentId opts) sectionId
                                            bindingType messageId)
                      r_create ;;
     setActiveBindings
       (fun prev =>
          filter (fun b => negb (Binding.section_id b =? sectionId)%string
                           || negb (Binding.is_active b)) prev
          ++ [binding]) ;;
     setActiveSectionId (Some sectionId) ;;
     ret binding)
    (fun err =>
       let error := Js.asError err "Failed to activate section" in
       onError_opt opts error ;;
       throw (Js.ErrorObject error)).

Definition deactivateSection (render : HookState)
    (sectionId : string) (r_deactivate : response Binding.t) : hook unit :=
  try_catch
    (let binding :=
       find (fun b => (Binding.section_id b =? sectionId)%string
                      && Binding.is_active b)
            (activeBindings render) in
     match binding with
     | Some found =>
         _ <- await (UpdateSectionBinding (documentId opts) (Binding.id found) false)
                    r_deactivate ;;
         setActiveBindings
           (map (fun b => if (Binding.id b =? Binding.id found)%string
                          then Binding.set_inactive b else b))
     | None => ret tt
     end ;;
     if Js.strictEq (activeSectionId render) sectionId
     then setActiveSectionId None
     else ret tt)
    (fun err =>
       let error := Js.asError err "Failed to deactivate section" in
       onError_opt opts error ;;
       throw (Js.ErrorObject error)).

(** [getActiveBinding(sectionId)] *)
Definition getActiveBinding (render : HookState) (sectionId : string)
  : option Binding.t :=
  find (fun b => (Binding.section_id b =? sectionId)%string && Binding.is_active b)
       (activeBindings render).

(** [isSectionActive(sectionId)] *)
Definition isSectionActive (render : HookState) (sectionId : string) : bool :=
  Js.strictEq (activeSectionId render) sectionId.

End Hook.

(** A callback invoked from the latest render: its closure holds the
    current state. *)
Definition invoke {A} (callback : HookState -> hook A) : hook A :=
  fun w => callback (state w) w.

End UseDocument.

(* ===================================================================== *)
(** * The [SectionPanel] tree projection                                   *)
(* ===================================================================== *)

Module SectionPanel.

(** [(a, b) => a.order - b.order] *)
Definition byOrder (a b : Sec.t) : Z := Sec.order a - Sec.order b.

(** [sections.filter((s) => !s.parent_id)] *)
Definition rootSections (sections : list Sec.t) : list Sec.t :=
  filter (fun s => negb (Js.truthy (Sec.parent_id s))) sections.

(** [sections.filter((s) => s.parent_id === parentId).sort(...)] *)
Definition getChildren (sections : list Sec.t) (parentId : string) : list Sec.t :=
  Js.sort byOrder
    (filter (fun s => Js.strictEq (Sec.parent_id s) parentId) sections).

(** The root list as rendered: [rootSections.sort(...)]. *)
Definition sortedRoots (sections : list Sec.t) : list Sec.t :=
  Js.sort byOrder (rootSections sections).

(** [getActiveBinding(sectionId)] of the panel. *)
Definition getActiveBinding (activeBindings : list Binding.t) (sectionId : string)
  : option Binding.t :=
  find (fun b => (Binding.section_id b =? sectionId)%string && Binding.is_active b)
       activeBindings.

End SectionPanel.

(* ===================================================================== *)
(** * Presence: [CollaborationCursors] and [useCollaborators]              *)
(* ===================================================================== *)

Module Presence.

(** Pointer coordinates are only copied into the rendered element. *)
Record Cursor := mkCursor { x : Z; y : Z }.

Record PresenceData := mkPresence {
  cursor : option Cursor;
  selection : option string
}.

Record UserInfo := mkUserInfo {
  name : string;
  color : string;
  avatar : option string
}.

(** An entry of [useOthers()]; [presence] and [info] may be missing. *)
Record Other := mkOther {
  connectionId : Z;
  presence : option PresenceData;
  info : option UserInfo
}.

(** [(presence as Presence)?.cursor] *)
Definition cursorOf (o : Other) : option Cursor :=
  match presence o with
  | Some p => cursor p
  | None => None
  end.

(** The element drawn for one remote cursor. *)
Record CursorElement := mkCursorElement {
  key : Z;
  translateX : Z;
  translateY : Z;
  fill : string;
  backgroundColor : string;
  label : string
}.

(** The callback of [others.map] in [CollaborationCursors]; [None] is the
    [null] that renders nothing. *)
Definition renderCursor (o : Other) : option CursorElement :=
  match cursorOf o with
  | None => None
  | Some c =>
      let userInfo := info o in
      Some (mkCursorElement
              (connectionId o) (x c) (y c)
              (Js.orElse (option_map color userInfo) "#000")
              (Js.orElse (option_map color userInfo) "#000")
              (Js.orElse (option_map name userInfo) "Anonymous"))
  end.

Definition CollaborationCursors (others : list Other) : list (option CursorElement) :=
  map renderCursor others.

(** The elements that reach the screen: [null] children are dropped. *)
Definition renderedCursors (others : list Other) : list CursorElement :=
  flat_map (fun e => match e with Some c => [c] | None => [] end)
           (CollaborationCursors others).

Record Collaborator := mkCollaborator {
  id : Z;
  collaboratorInfo : option UserInfo;
  collaboratorPresence : option PresenceData
}.

Record Collaborators := mkCollaborators {
  others : list Collaborator;
  self : option Collaborator;
  count : nat
}.

Definition toCollaborator (o : Other) : Collaborator :=
  mkCollaborator (connectionId o) (info o) (presence o).

Definition useCollaborators (others : list Other) (self : option Other)
  : Collaborators :=
  mkCollaborators
    (map toCollaborator others)
    (option_map toCollaborator self)
    (List.length others + 1).

End Presence.

(* ===================================================================== *)
(** * Predicates used in the statements                                    *)
(* ===================================================================== *)

(** Ascending by [order]: every element is at most every later one. *)
Definition ascending (l : list Sec.t) : Prop :=
  StronglySorted (fun a b => Sec.order a <= Sec.order b) l.

(** The bindings of a list that are marked active. *)
Definition activeOnes (l : list Binding.t) : list Binding.t :=
  filter Binding.is_active l.

(** The final state, the backend requests, the [onError] reports and the
    result of an outcome. *)
Definition finalState {A} (o : World * (Js.thrown + A)) : HookState := state (fst o).
Definition requests {A} (o : World * (Js.thrown + A)) : list ApiCall := calls (log (fst o)).
Definition reports {A} (o : World * (Js.thrown + A)) : list Js.Error := reported (log (fst o)).
Definition result {A} (o : World * (Js.thrown + A)) : Js.thrown + A := snd o.

(** A client session: [activateSection] / [deactivateSection] calls made
    one after the other, each from the render that follows the previous
    call, together with the responses the backend gives to each. *)
Inductive Command :=
| Activate (sectionId : string) (bindingType : option BindingType)
    (messageId : option string) (r_deactivate r_create : response Binding.t)
| Deactivate (sectionId : string) (r_deactivate : response Binding.t).

Definition runCommand (opts : UseDocument.Options) (c : Command) : hook unit :=
  match c with
  | Activate sectionId bindingType messageId r_deactivate r_create =>
      bind (UseDocument.invoke
              (fun render =>
                 UseDocument.activateSection opts render sectionId bindingType
                   messageId r_deactivate r_create))
           (fun _ => ret tt)
  | Deactivate sectionId r_deactivate =>
      UseDocument.invoke
        (fun render =>
           UseDocument.deactivateSection opts render sectionId r_deactivate)
  end.

(** The whole session; the caller goes on after a rejected call. *)
Fixpoint runSession (opts : UseDocument.Options) (cmds : list Command) : hook unit :=
  match cmds with
  | [] => ret tt
  | c :: rest => fun w => runSession opts rest (fst (runCommand opts c w))
  end.

(** The states a reader can observe: the one before the session and the
    one after each call (a rejected call does not stop the session). *)
Fixpoint observedStates (opts : UseDocument.Options) (cmds : list Command)
    (st : HookState) : list HookState :=
  st :: match cmds with
        | [] => []
        | c :: rest =>
            observedStates opts rest (state (fst (runCommand opts c (mkWorld st []))))
        end.

(** At most one binding of the list is marked active. *)
Definition atMostOneActive (l : list Binding.t) : Prop :=
  (List.length (activeOnes l) <= 1)%nat.

(** Records used in the worked scenarios: a binding as the backend returns
    it for a create request, a section, and a loaded document. *)
Definition bindingRecord (id section : string) (type : BindingType) (active : bool)
  : Binding.t :=
  Binding.mk id section None type (Some "u1"%string) false active None
             "2024-01-01T00:00:00Z"%string None.

Definition sectionRecord (id : string) (parent : option string) (order : Z) : Sec.t :=
  Sec.mk id "doc-1"%string id id parent order draft None false.

Definition documentRecord (content : Doc.content_t) : Doc.t :=
  Doc.mk "doc-1"%string "Requirements"%string 1 (Some content).

Definition opts1 : UseDocument.Options := UseDocument.mkOptions "doc-1"%string true.

(* ===================================================================== *)
(** * Further definitions: identifiers and the token endpoint              *)
(* ===================================================================== *)

(** The alternating sum of the code units, last one positive:
    [c_n - c_(n-1) + c_(n-2) - ...]. *)
Definition alternatingSum (u : Js.codeUnits) : Z :=
  fold_left (fun acc c => c - acc) u 0.

Module JsString.

(** [s.startsWith(p)] on code units. *)
Fixpoint startsWith (p s : Js.codeUnits) : bool :=
  match p, s with
  | [], _ => true
  | _ :: _, [] => false
  | a :: p', b :: s' => (a =? b) && startsWith p' s'
  end.

(** [s.replace(pattern, replacement)] with a string pattern and a
    replacement without dollar signs: the first occurrence of the pattern,
    if any, is replaced. *)
Fixpoint replace (pattern replacement s : Js.codeUnits) : Js.codeUnits :=
  if startsWith pattern s
  then replacement ++ skipn (List.length pattern) s
  else match s with
       | [] => []
       | c :: s' => c :: replace pattern replacement s'
       end.

(** [s.includes(p)] *)
Fixpoint includes (p s : Js.codeUnits) : bool :=
  startsWith p s
  || match s with
     | [] => false
     | _ :: s' => includes p s'
     end.

End JsString.

Module TokenEndpoint.

(** What [fetch] resolves to, as far as [authEndpoint] reads it:
    [response.ok] and the outcome of [response.json()] reduced to its
    [token] member. *)
Record FetchResponse := mkFetchResponse {
  ok : bool;
  json : response string
}.

(** The request [authEndpoint] sends: a POST to this URL. *)
Record Request := mkRequest {
  url : Js.codeUnits
}.

(** The URL [`/api/v1/sessions/${sessionId}/liveblocks-token`]. *)
Definition tokenUrl (sessionId : Js.codeUnits) : Js.codeUnits :=
  Js.code_units "/api/v1/sessions/" ++ sessionId
  ++ Js.code_units "/liveblocks-token".

(** [const sessionId = room.replace("session-", "")] *)
Definition sessionIdOf (room : Js.codeUnits) : Js.codeUnits :=
  JsString.replace (Js.code_units "session-") [] room.

(** [authEndpoint]: [room] may be undefined ([None]); the result lists the
    requests sent and what the promise settles to. *)
Definition authEndpoint (room : option Js.codeUnits)
    (r_fetch : response FetchResponse) : list Request * (Js.thrown + string) :=
  match room with
  | None | Some [] =>
      ([], inl (Js.ErrorObject (Js.MkError "Room ID is required")))
  | Some room =>
      let sessionId := sessionIdOf room in
      let sent := [mkRequest (tokenUrl sessionId)] in
      match r_fetch with
      | inl err => (sent, inl err)
      | inr resp =>
          if negb (ok resp)
          then (sent, inl (Js.ErrorObject (Js.MkError "Failed to get Liveblocks token")))
          else match json resp with
               | inl err => (sent, inl err)
               | inr token => (sent, inr token)
               end
      end
  end.

End TokenEndpoint.

(* ===================================================================== *)
(** * Further definitions: the binding list                                *)
(* ===================================================================== *)

(** The bindings of the list that are active on a given section. *)
Definition activeFor (sectionId : string) (l : list Binding.t) : list Binding.t :=
  filter (fun b => (Binding.section_id b =? sectionId)%string && Binding.is_active b) l.

(** No section has two active bindings in the list. *)
Definition oneActivePerSection (l : list Binding.t) : Prop :=
  forall sectionId, (List.length (activeFor sectionId l) <= 1)%nat.

(** The backend answers a create request with a binding on the section it
    was asked for. *)
Definition answersRequest (c : Command) : Prop :=
  match c with
  | Activate sectionId _ _ _ (inr created) => Binding.section_id created = sectionId
  | _ => True
  end.

(** The cells that [activateSection] and [deactivateSection] have no
    setter call for. *)
Definition sameDocumentCells (a b : HookState) : Prop :=
  document a = document b /\ sections a = sections b
  /\ isLoading a = isLoading b /\ error a = error b.

(* ===================================================================== *)
(** * Further definitions: the other callbacks of [useDocument]            *)
(* ===================================================================== *)

Module UseDocumentSections.

(** The argument of [createSection]. *)
Record NewSection := mkNewSection {
  new_section_number : string;
  new_title : string;
  new_parent_id : option string;
  new_order : option Z
}.

(** A section object as parsed from a response, or a [Partial<Section>]:
    any member may be missing ([None]); the two optional members may also
    be present with no value ([Some None]). *)
Record SectionJson := mkSectionJson {
  j_id : option string;
  j_document_id : option string;
  j_section_number : option string;
  j_title : option string;
  j_parent_id : option (option string);
  j_order : option Z;
  j_status : option SectionStatus;
  j_content_preview : option (option string);
  j_ai_generated : option bool
}.

(** [{ ...s, ...updated }]: the members present in [updated] win. *)
Definition spread (s : Sec.t) (updated : SectionJson) : Sec.t :=
  let pick {A} (old : A) (new : option A) : A :=
    match new with Some v => v | None => old end in
  Sec.mk (pick (Sec.id s) (j_id updated))
         (pick (Sec.document_id s) (j_document_id updated))
         (pick (Sec.section_number s) (j_section_number updated))
         (pick (Sec.title s) (j_title updated))
         (pick (Sec.parent_id s) (j_parent_id updated))
         (pick (Sec.order s) (j_order updated))
         (pick (Sec.status s) (j_status updated))
         (pick (Sec.content_preview s) (j_content_preview updated))
         (pick (Sec.ai_generated s) (j_ai_generated updated)).

(** The backend requests of these callbacks. *)
Inductive SectionCall :=
| CreateSection (documentId : string) (data : NewSection)
| UpdateSection (documentId sectionId : string) (data : SectionJson)
| CreateDocumentVersion (documentId : string) (changeSummary : option string).

(** What a call of one of these callbacks amounts to: the state after it,
    the requests sent, the errors handed to [onError], and what the promise
    settles to. *)
Record Outcome (A : Type) := mkOutcome {
  after : HookState;
  sent : list SectionCall;
  told : list Js.Error;
  settled : Js.thrown + A
}.
Arguments mkOutcome {A}.
Arguments after {A}.
Arguments sent {A}.
Arguments told {A}.
Arguments settled {A}.

Definition withSections (st : HookState) (l : list Sec.t) : HookState :=
  mkState (document st) l (activeBindings st) (activeSectionId st)
          (isLoading st) (error st).

Section Callbacks.
Variable opts : UseDocument.Options.

(** The [catch] block shared by the callbacks: report, then rethrow. *)
Definition rejected {A} (st : HookState) (call : SectionCall)
    (err : Js.thrown) (fallback : string) : Outcome A :=
  let error := Js.asError err fallback in
  mkOutcome st [call]
            (if UseDocument.onError opts then [error] else [])
            (inl (Js.ErrorObject error)).

Definition createSection (data : NewSection) (r_create : response Sec.t)
    (st : HookState) : Outcome Sec.t :=
  let call := CreateSection (UseDocument.documentId opts) data in
  match r_create with
  | inr section =>
      mkOutcome (withSections st (sections st ++ [section])) [call] [] (inr section)
  | inl err => rejected st call err "Failed to create section"
  end.

Definition updateSection (sectionId : string) (data : SectionJson)
    (r_update : response SectionJson) (st : HookState) : Outcome SectionJson :=
  let call := UpdateSection (UseDocument.documentId opts) sectionId data in
  match r_update with
  | inr updated =>
      mkOutcome
        (withSections st
           (map (fun s => if (Sec.id s =? sectionId)%string
                          then spread s updated else s)
                (sections st)))
        [call] [] (inr updated)
  | inl err => rejected st call err "Failed to update section"
  end.

(** The version record is passed through unread. *)
Definition createVersion (changeSummary : option string)
    (r_version : response string) (st : HookState) : Outcome string :=
  let call := CreateDocumentVersion (UseDocument.documentId opts) changeSummary in
  match r_version with
  | inr version => mkOutcome st [call] [] (inr version)
  | inl err => rejected st call err "Failed to create version"
  end.

End Callbacks.

(** [getSectionById(sectionId)] *)
Definition getSectionById (render : HookState) (sectionId : string) : option Sec.t :=
  find (fun s => (Sec.id s =? sectionId)%string) (sections render).

(** [activeSection: activeSectionId ? getSectionById(activeSectionId) : null] *)
Definition activeSection (render : HookState) : option Sec.t :=
  match activeSectionId render with
  | Some sectionId =>
      if Js.truthy (Some sectionId) then getSectionById render sectionId else None
  | None => None
  end.

End UseDocumentSections.

(* ===================================================================== *)
(** * Further definitions: the rows drawn by [SectionPanel]                *)
(* ===================================================================== *)

Module PanelView.

(** [statusLabels] *)
Definition statusLabels (s : SectionStatus) : string :=
  match s with
  | empty => "Empty"
  | draft => "Draft"
  | needs_review => "Needs Review"
  | approved => "Approved"
  | disputed => "Disputed"
  end.

(** [bindingTypeColors] *)
Definition bindingTypeColors (t : BindingType) : string :=
  match t with
  | discussion => "ring-blue-500"
  | editing => "ring-purple-500"
  | reference => "ring-gray-500"
  | question => "ring-yellow-500"
  | approval => "ring-green-500"
  end.

(** [bindingTypeLabels] *)
Definition bindingTypeLabels (t : BindingType) : string :=
  match t with
  | discussion => "Discussing"
  | editing => "Editing"
  | reference => "Referenced"
  | question => "Question"
  | approval => "Approving"
  end.

(** [expandedSections], a [Set<string>]: its members in insertion order. *)
Definition StringSet := list string.

Definition has (s : StringSet) (x : string) : bool :=
  existsb (fun y => (y =? x)%string) s.

Definition add (s : StringSet) (x : string) : StringSet :=
  if has s x then s else s ++ [x].

Definition delete (s : StringSet) (x : string) : StringSet :=
  filter (fun y => negb (y =? x)%string) s.

(** The state update of [toggleExpanded(sectionId)]. *)
Definition toggleExpanded (prev : StringSet) (sectionId : string) : StringSet :=
  let next := prev in
  if has next sectionId then delete next sectionId else add next sectionId.

(** Which of the two action buttons a row carries. *)
Inductive ActionButton := StopFocusing | FocusOnSection.

(** What is drawn for one section. *)
Record Row := mkRow {
  rowSection : Sec.t;
  marginLeft : Z;
  toggle : option bool;          (* the expand/collapse button and its state *)
  ring : option string;          (* the ring class of an active binding *)
  statusLabel : string;
  bindingLabel : option string;  (* the pulsing binding pill *)
  aiBadge : bool;
  button : ActionButton
}.

(** Applies [f] to every element; [None] as soon as one call gives none. *)
Fixpoint mapM {A B} (f : A -> option B) (l : list A) : option (list B) :=
  match l with
  | [] => Some []
  | a :: l' =>
      match f a, mapM f l' with
      | Some b, Some bs => Some (b :: bs)
      | _, _ => None
      end
  end.

Section Render.
Variable sections : list Sec.t.
Variable activeBindings : list Binding.t.
Variable activeSectionId : option string.
Variable expandedSections : StringSet.

(** [hasChildren]: [getChildren(section.id).length > 0] *)
Definition hasChildren (section : Sec.t) : bool :=
  (0 <? List.length (SectionPanel.getChildren sections (Sec.id section)))%nat.

(** The row of [renderSection] without its children. *)
Definition rowOf (section : Sec.t) (depth : nat) : Row :=
  let isExpanded := has expandedSections (Sec.id section) in
  let binding := SectionPanel.getActiveBinding activeBindings (Sec.id section) in
  let active := Js.strictEq activeSectionId (Sec.id section) in
  mkRow section
        (Z.of_nat depth * 16)
        (if hasChildren section then Some isExpanded else None)
        (if active
         then option_map (fun b => ("ring-2 " ++ bindingTypeColors (Binding.binding_type b))%string)
                         binding
         else None)
        (statusLabels (Sec.status section))
        (if active
         then option_map (fun b => bindingTypeLabels (Binding.binding_type b)) binding
         else None)
        (Sec.ai_generated section)
        (if active then StopFocusing else FocusOnSection).

(** [renderSection(section, depth)], rows in document order. The recursion
    follows the sections, not a shrinking argument, so it is bounded by
    [fuel]; [None] means the bound was reached. *)
Fixpoint renderSection (fuel : nat) (section : Sec.t) (depth : nat)
  : option (list Row) :=
  match fuel with
  | O => None
  | S fuel' =>
      let children := SectionPanel.getChildren sections (Sec.id section) in
      if hasChildren section && has expandedSections (Sec.id section)
      then match mapM (fun child => renderSection fuel' child (S depth)) children with
           | Some rows => Some (rowOf section depth :: List.concat rows)
           | None => None
           end
      else Some [rowOf section depth]
  end.

(** The list part of the panel: nothing for an empty section list,
    otherwise the sorted roots, each with what it unfolds to. *)
Definition panelRows (fuel : nat) : option (list Row) :=
  if (List.length sections =? 0)%nat
  then Some []
  else option_map (@List.concat Row)
         (mapM (fun section => renderSection fuel section 0)
               (SectionPanel.sortedRoots sections)).

(** The "Clear focus" button is shown when [activeSectionId] is truthy. *)
Definition clearFocusShown : bool := Js.truthy activeSectionId.

End Render.

(** A path from a root down to a section, deepest first: each section is
    listed and names the next one as its parent. *)
Inductive chain (sections : list Sec.t) : list Sec.t -> Prop :=
| chain_root r :
    In r sections -> Js.truthy (Sec.parent_id r) = false -> chain sections [r]
| chain_child c p path :
    chain sections (p :: path) -> In c sections ->
    Sec.parent_id c = Some (Sec.id p) -> chain sections (c :: p :: path).

End PanelView.

(* ===================================================================== *)
(** * Properties of [getUserColor]                                         *)
(* ===================================================================== *)

Lemma toInt32_range (n : Z) : - 2 ^ 31 <= Js.toInt32 n < 2 ^ 31.
Proof.
  unfold Js.toInt32.
  pose proof (Z.mod_pos_bound (n + 2 ^ 31) (2 ^ 32) ltac:(lia)). lia.
Qed.

Lemma toInt32_small (n : Z) : - 2 ^ 31 <= n < 2 ^ 31 -> Js.toInt32 n = n.
Proof.
  intros H. unfold Js.toInt32. rewrite Z.mod_small; lia.
Qed.

Lemma hash_step_bound (h c : Z) :
  0 <= c <= 65535 -> Z.abs (Liveblocks.hash_step h c) <= Z.abs h + (2 ^ 31 + 65535).
Proof.
  intros Hc. unfold Liveblocks.hash_step, Js.shl.
  pose proof (toInt32_range (Z.shiftl (Js.toInt32 h) 5)). lia.
Qed.

Lemma fold_hash_bound (u : Js.codeUnits) :
  Forall (fun c => 0 <= c <= 65535) u ->
  forall h, Z.abs (fold_left Liveblocks.hash_step u h)
            <= Z.abs h + Z.of_nat (List.length u) * (2 ^ 31 + 65535).
Proof.
  induction 1 as [|c u Hc _ IH]; intros h; simpl fold_left.
  - simpl. lia.
  - specialize (IH (Liveblocks.hash_step h c)).
    pose proof (hash_step_bound h c Hc).
    change (List.length (c :: u)) with (S (List.length u)).
    rewrite Nat2Z.inj_succ. lia.
Qed.

(** The running hash grows by at most 2^31 + 65535 per code unit, so for
    identifiers shorter than four million code units every intermediate
    number is an integer below 2^53. *)
Lemma hash_of_bound (u : Js.codeUnits) :
  Forall (fun c => 0 <= c <= 65535) u ->
  Z.abs (Liveblocks.hash_of u) <= Z.of_nat (List.length u) * (2 ^ 31 + 65535).
Proof.
  intros H. unfold Liveblocks.hash_of.
  pose proof (fold_hash_bound u H 0). simpl Z.abs in *. lia.
Qed.

Lemma palette_index (n : nat) :
  (n < 8)%nat ->
  exists c, nth_error Liveblocks.colors n = Some c /\ In c Liveblocks.colors.
Proof.
  intros Hn.
  do 8 (destruct n as [|n];
        [ eexists; split; [reflexivity | simpl; tauto] | ]).
  lia.
Qed.

Example getUserColor_a :
  Liveblocks.getUserColor (Js.code_units "a") = Some "#81C784"%string.
Proof. reflexivity. Qed.

Example getUserColor_user_42 :
  Liveblocks.hash_of (Js.code_units "user-42") = -147182656
  /\ Liveblocks.getUserColor (Js.code_units "user-42") = Some "#E57373"%string.
Proof. split; reflexivity. Qed.

(** The subtraction is not wrapped: the hash leaves the 32-bit range. *)
Example getUserColor_uuid :
  let userId := Js.code_units "550e8400-e29b-41d4-a716-446655440000" in
  Liveblocks.hash_of userId = 10306715597
  /\ Liveblocks.getUserColor userId = Some "#4DB6AC"%string.
Proof. split; vm_compute; reflexivity. Qed.

(** C10. For every userId, [getUserColor] returns a member of the
    eight-colour palette, and calls on equal userIds return the same
    colour. *)
Theorem getUserColor_palette_deterministic :
  forall userId : Js.codeUnits,
    (exists c, Liveblocks.getUserColor userId = Some c /\ In c Liveblocks.colors)
    /\ (forall userId' : Js.codeUnits,
          userId' = userId ->
          Liveblocks.getUserColor userId' = Liveblocks.getUserColor userId).
Proof.
  intros userId. split.
  - unfold Liveblocks.getUserColor.
    apply palette_index.
    change (Z.of_nat (List.length Liveblocks.colors)) with 8.
    pose proof (Z.mod_pos_bound (Z.abs (Liveblocks.hash_of userId)) 8 ltac:(lia)).
    lia.
  - intros userId' ->. reflexivity.
Qed.

Lemma getUserColor_palette_deterministic_witness :
  (exists c, Liveblocks.getUserColor (Js.code_units "a") = Some c
             /\ In c Liveblocks.colors)
  /\ Liveblocks.getUserColor [97] = Liveblocks.getUserColor (Js.code_units "a").
Proof.
  destruct (getUserColor_palette_deterministic (Js.code_units "a")) as [Hin Hdet].
  split; [exact Hin | apply Hdet; reflexivity].
Defined.

(* ===================================================================== *)
(** * Properties of the stable sort                                        *)
(* ===================================================================== *)

Section SortFacts.
Context {A : Type} (cmp : A -> A -> Z).

Lemma insert_perm (x : A) (l : list A) : Permutation (Js.insert cmp x l) (x :: l).
Proof.
  induction l as [|y l IH]; simpl.
  - reflexivity.
  - destruct (cmp x y <=? 0).
    + reflexivity.
    + rewrite IH. apply perm_swap.
Qed.

Lemma sort_perm (l : list A) : Permutation (Js.sort cmp l) l.
Proof.
  induction l as [|x l IH]; simpl.
  - constructor.
  - rewrite insert_perm. now constructor.
Qed.

Lemma sort_In (l : list A) (a : A) : In a (Js.sort cmp l) <-> In a l.
Proof.
  split; apply Permutation_in; [| symmetry]; apply sort_perm.
Qed.

End SortFacts.

Lemma insert_ascending (x : Sec.t) (l : list Sec.t) :
  ascending l -> ascending (Js.insert SectionPanel.byOrder x l).
Proof.
  unfold ascending.
  induction 1 as [|y l Hs IH Hy]; simpl.
  - repeat constructor.
  - unfold SectionPanel.byOrder at 1.
    destruct (Z.leb_spec (Sec.order x - Sec.order y) 0) as [Hle|Hgt].
    + constructor; [constructor; assumption|].
      constructor; [lia|].
      rewrite Forall_forall in *. intros z Hz. specialize (Hy z Hz). lia.
    + constructor; [assumption|].
      rewrite Forall_forall in *. intros z Hz.
      apply (Permutation_in _ (insert_perm SectionPanel.byOrder x l)) in Hz.
      destruct Hz as [<-|Hz]; [lia | now apply Hy].
Qed.

Lemma sort_ascending (l : list Sec.t) : ascending (Js.sort SectionPanel.byOrder l).
Proof.
  induction l as [|x l IH]; simpl.
  - constructor.
  - now apply insert_ascending.
Qed.

(** Stability: sections with the same [order] keep their relative
    positions. *)
Lemma insert_stable (k : Z) (x : Sec.t) (l : list Sec.t) :
  filter (fun s => Sec.order s =? k) (Js.insert SectionPanel.byOrder x l)
  = filter (fun s => Sec.order s =? k) (x :: l).
Proof.
  induction l as [|y l IH]; [reflexivity|].
  simpl Js.insert. unfold SectionPanel.byOrder at 1.
  destruct (Z.leb_spec (Sec.order x - Sec.order y) 0) as [Hle|Hgt]; [reflexivity|].
  simpl filter in *. rewrite IH.
  destruct (Z.eqb_spec (Sec.order x) k), (Z.eqb_spec (Sec.order y) k);
    try reflexivity; lia.
Qed.

Lemma sort_stable (k : Z) (l : list Sec.t) :
  filter (fun s => Sec.order s =? k) (Js.sort SectionPanel.byOrder l)
  = filter (fun s => Sec.order s =? k) l.
Proof.
  induction l as [|x l IH]; [reflexivity|].
  simpl Js.sort. rewrite insert_stable. simpl. now rewrite IH.
Qed.

(* ===================================================================== *)
(** * Properties of the section tree projection                            *)
(* ===================================================================== *)

Lemma falsy_parent (p : option string) :
  negb (Js.truthy p) = true <-> p = None \/ p = Some EmptyString.
Proof.
  destruct p as [s|]; simpl.
  - rewrite negb_involutive. rewrite String.eqb_eq.
    split; [intros -> ; now right | intros [H|H]; congruence].
  - split; [now left | reflexivity].
Qed.

Lemma strictEq_true (a : option string) (b : string) :
  Js.strictEq a b = true <-> a = Some b.
Proof.
  destruct a as [s|]; simpl.
  - rewrite String.eqb_eq. split; congruence.
  - split; discriminate.
Qed.

Lemma rootSections_In (secs : list Sec.t) (s : Sec.t) :
  In s (SectionPanel.sortedRoots secs)
  <-> In s secs /\ (Sec.parent_id s = None \/ Sec.parent_id s = Some EmptyString).
Proof.
  unfold SectionPanel.sortedRoots, SectionPanel.rootSections.
  rewrite sort_In, filter_In, falsy_parent. reflexivity.
Qed.

Lemma getChildren_In (secs : list Sec.t) (parentId : string) (s : Sec.t) :
  In s (SectionPanel.getChildren secs parentId)
  <-> In s secs /\ Sec.parent_id s = Some parentId.
Proof.
  unfold SectionPanel.getChildren.
  rewrite sort_In, filter_In, strictEq_true. reflexivity.
Qed.

(** The scenario of the outline with one root and one child; the members
    not named in the scenario are arbitrary. *)
Lemma tree_scenario (s1 s2 : Sec.t) :
  Sec.id s1 = "s1"%string -> Sec.parent_id s1 = None ->
  Sec.id s2 = "s2"%string -> Sec.parent_id s2 = Some "s1"%string ->
  SectionPanel.sortedRoots [s1; s2] = [s1]
  /\ SectionPanel.getChildren [s1; s2] "s1" = [s2].
Proof.
  intros _ Hp1 _ Hp2.
  unfold SectionPanel.sortedRoots, SectionPanel.rootSections,
         SectionPanel.getChildren.
  simpl. rewrite Hp1, Hp2. simpl. split; reflexivity.
Qed.

(** A section whose [parent_id] is the empty string is listed as a root
    although its [parent_id] is neither null nor absent. *)
Lemma roots_empty_parent_counterexample :
  let s := (Sec.mk "a" "d" "1" "Intro" (Some EmptyString) 0 draft None false)%string in
  ~ (forall x, In x (SectionPanel.sortedRoots [s])
               <-> In x [s] /\ Sec.parent_id x = None).
Proof.
  intros s H.
  destruct (H s) as [Hroot _].
  assert (Hin : In s (SectionPanel.sortedRoots [s])) by (simpl; now left).
  apply Hroot in Hin. destruct Hin as [_ Hnone]. discriminate Hnone.
Qed.

(** C7 (amended). For every flat list of sections, the root list consists
    of exactly the sections whose [parent_id] is falsy (null, absent, or the
    empty string), in ascending [order]; for every id, the children are
    exactly the sections whose [parent_id] equals that id, in ascending
    [order]; and in the scenario with root s1 and child s2 the root list is
    [s1] and the children of s1 are [s2]. *)
Theorem section_tree_projection :
  forall secs : list Sec.t,
    (forall s, In s (SectionPanel.sortedRoots secs)
               <-> In s secs
                   /\ (Sec.parent_id s = None \/ Sec.parent_id s = Some EmptyString))
    /\ Permutation (SectionPanel.sortedRoots secs)
                   (filter (fun s => negb (Js.truthy (Sec.parent_id s))) secs)
    /\ ascending (SectionPanel.sortedRoots secs)
    /\ (forall parentId,
          (forall s, In s (SectionPanel.getChildren secs parentId)
                     <-> In s secs /\ Sec.parent_id s = Some parentId)
          /\ Permutation (SectionPanel.getChildren secs parentId)
                         (filter (fun s => Js.strictEq (Sec.parent_id s) parentId) secs)
          /\ ascending (SectionPanel.getChildren secs parentId))
    /\ (forall s1 s2,
          Sec.id s1 = "s1"%string -> Sec.parent_id s1 = None ->
          Sec.id s2 = "s2"%string -> Sec.parent_id s2 = Some "s1"%string ->
          SectionPanel.sortedRoots [s1; s2] = [s1]
          /\ SectionPanel.getChildren [s1; s2] "s1" = [s2]).
Proof.
  intros secs.
  split; [intros s; apply rootSections_In|].
  split; [apply sort_perm|].
  split; [apply sort_ascending|].
  split.
  - intros parentId.
    split; [intros s; apply getChildren_In|].
    split; [apply sort_perm | apply sort_ascending].
  - intros s1 s2. apply tree_scenario.
Qed.

Lemma section_tree_projection_witness :
  let s1 := (Sec.mk "s1" "d" "1" "Scope" None 0 draft None false)%string in
  let s2 := (Sec.mk "s2" "d" "1.1" "Goals" (Some "s1") 0 empty None false)%string in
  SectionPanel.sortedRoots [s1; s2] = [s1]
  /\ SectionPanel.getChildren [s1; s2] "s1" = [s2].
Proof.
  intros s1 s2.
  destruct (section_tree_projection [s1; s2]) as (_ & _ & _ & _ & Hscenario).
  apply Hscenario; reflexivity.
Defined.

(** Ties in [order] keep the order of the input list, and larger orders
    come later. *)
Example getChildren_order :
  let mk i o := (Sec.mk i "d" i i (Some "p") o draft None false)%string in
  (SectionPanel.getChildren [mk "a" 2; mk "b" 1; mk "c" 2; mk "d" 1] "p"
   = [mk "b" 1; mk "d" 1; mk "a" 2; mk "c" 2])%string.
Proof. reflexivity. Qed.

(* ===================================================================== *)
(** * Properties of the presence projections                               *)
(* ===================================================================== *)

Lemma renderCursor_none (o : Presence.Other) :
  Presence.cursorOf o = None -> Presence.renderCursor o = None.
Proof. unfold Presence.renderCursor. now intros ->. Qed.

Lemma renderCursor_some (o : Presence.Other) (e : Presence.CursorElement) :
  Presence.renderCursor o = Some e ->
  exists c, Presence.cursorOf o = Some c
            /\ Presence.key e = Presence.connectionId o
            /\ Presence.translateX e = Presence.x c
            /\ Presence.translateY e = Presence.y c.
Proof.
  unfold Presence.renderCursor.
  destruct (Presence.cursorOf o) as [c|]; [|discriminate].
  intros [= <-]. exists c. simpl. auto.
Qed.

(** Every element on screen comes from a participant with a cursor. *)
Lemma renderedCursors_In (others : list Presence.Other) (e : Presence.CursorElement) :
  In e (Presence.renderedCursors others)
  <-> exists o, In o others /\ Presence.renderCursor o = Some e.
Proof.
  unfold Presence.renderedCursors, Presence.CollaborationCursors.
  rewrite in_flat_map. split.
  - intros (r & Hr & He). apply in_map_iff in Hr as (o & <- & Ho).
    exists o. split; [assumption|].
    destruct (Presence.renderCursor o) as [e'|]; simpl in He; [|contradiction].
    destruct He as [->|[]]. reflexivity.
  - intros (o & Ho & Hr). exists (Some e). split.
    + apply in_map_iff. exists o. now split.
    + simpl. now left.
Qed.

(** C8. A remote participant whose presence carries no cursor (null cursor
    or no presence record) gets no rendered cursor: the slot rendered for
    that participant is null and no element on screen stems from it, while
    the collaborator list still has the participant's entry at the same
    position, and counts it. *)
Theorem null_cursor_not_rendered_but_listed :
  forall (others : list Presence.Other) (self : option Presence.Other)
         (i : nat) (o : Presence.Other),
    nth_error others i = Some o ->
    Presence.cursorOf o = None ->
    nth_error (Presence.CollaborationCursors others) i = Some None
    /\ (forall e, Presence.renderCursor o <> Some e)
    /\ List.length (Presence.renderedCursors others)
       = List.length (filter (fun p => match Presence.cursorOf p with
                                       | Some _ => true
                                       | None => false
                                       end) others)
    /\ nth_error (Presence.others (Presence.useCollaborators others self)) i
       = Some (Presence.mkCollaborator
                 (Presence.connectionId o) (Presence.info o) (Presence.presence o))
    /\ Presence.count (Presence.useCollaborators others self)
       = (List.length others + 1)%nat.
Proof.
  intros others self i o Hi Hc.
  split; [|split; [|split; [|split]]].
  - unfold Presence.CollaborationCursors.
    rewrite nth_error_map, Hi. simpl. now rewrite renderCursor_none.
  - intros e. now rewrite renderCursor_none.
  - clear. unfold Presence.renderedCursors, Presence.CollaborationCursors.
    induction others as [|p others IH]; [reflexivity|].
    simpl. unfold Presence.renderCursor at 1.
    destruct (Presence.cursorOf p); simpl; now rewrite IH.
  - simpl. rewrite nth_error_map, Hi. reflexivity.
  - reflexivity.
Qed.

Lemma null_cursor_not_rendered_but_listed_witness :
  let alice := Presence.mkOther 1
                 (Some (Presence.mkPresence (Some (Presence.mkCursor 10 20)) None))
                 (Some (Presence.mkUserInfo "Alice" "#E57373" None))%string in
  let bob := Presence.mkOther 2
               (Some (Presence.mkPresence None None))
               (Some (Presence.mkUserInfo "Bob" "#81C784" None))%string in
  Presence.CollaborationCursors [alice; bob]
  = [Some (Presence.mkCursorElement 1 10 20 "#E57373" "#E57373" "Alice")%string; None]
  /\ nth_error (Presence.others (Presence.useCollaborators [alice; bob] None)) 1
     = Some (Presence.toCollaborator bob).
Proof.
  intros alice bob.
  destruct (null_cursor_not_rendered_but_listed [alice; bob] None 1 bob
              eq_refl eq_refl) as (_ & _ & _ & Hlisted & _).
  split; [reflexivity | exact Hlisted].
Defined.

(* ===================================================================== *)
(** * Properties of [useDocument]: loading and content                     *)
(* ===================================================================== *)

(** C6. [loadDocument] issues the three fetches together. If any of them
    fails, a load failure is reported (the [error] cell is set and [onError]
    is told) and the document, the section list and the binding list keep
    their previous values; if all three succeed, the three slices are
    replaced by the fetched values. *)
Theorem loadDocument_all_or_nothing :
  forall (opts : UseDocument.Options) (st : HookState)
         (r_doc : response Doc.t) (r_sections : response (list Sec.t))
         (r_bindings : response (list Binding.t)),
    let out := run (UseDocument.loadDocument opts r_doc r_sections r_bindings) st in
    requests out = [GetDocument (UseDocument.documentId opts);
                    ListSections (UseDocument.documentId opts);
                    GetActiveBindings (UseDocument.documentId opts)]
    /\ ((exists err, r_doc = inl err) \/ (exists err, r_sections = inl err)
        \/ (exists err, r_bindings = inl err) ->
        document (finalState out) = document st
        /\ sections (finalState out) = sections st
        /\ activeBindings (finalState out) = activeBindings st
        /\ activeSectionId (finalState out) = activeSectionId st
        /\ exists e, error (finalState out) = Some e
                     /\ reports out = (if UseDocument.onError opts then [e] else []))
    /\ (forall doc secs bs,
          r_doc = inr doc -> r_sections = inr secs -> r_bindings = inr bs ->
          document (finalState out) = Some doc
          /\ sections (finalState out) = secs
          /\ activeBindings (finalState out) = bs
          /\ error (finalState out) = None
          /\ reports out = []).
Proof.
  intros [documentId onError] st r_doc r_sections r_bindings out. subst out.
  unfold UseDocument.loadDocument, UseDocument.onError_opt, run,
         requests, reports, finalState.
  split; [|split].
  - destruct r_doc, r_sections, r_bindings, onError; reflexivity.
  - intros Hfail.
    destruct r_doc as [e1|d], r_sections as [e2|ss], r_bindings as [e3|bs];
      try (destruct Hfail as [[err H]|[[err H]|[err H]]]; discriminate H);
      destruct onError; simpl;
      (repeat split; eexists; split; reflexivity).
  - intros doc secs bs -> -> ->. repeat split; reflexivity.
Qed.

Lemma loadDocument_all_or_nothing_witness :
  let st := (mkState (Some (documentRecord "old")) [sectionRecord "s1" None 0]
                     [bindingRecord "b1" "s1" discussion true] (Some "s1")
                     false None)%string in
  let out := (run (UseDocument.loadDocument opts1
                     (inr (documentRecord "new"))
                     (inl (Js.ErrorObject (Js.MkError "API Error: 500")))
                     (inr [])) st)%string in
  document (finalState out) = document st
  /\ sections (finalState out) = sections st
  /\ activeBindings (finalState out) = activeBindings st.
Proof.
  intros st out.
  destruct (loadDocument_all_or_nothing opts1 st
              (inr (documentRecord "new"%string))
              (inl (Js.ErrorObject (Js.MkError "API Error: 500"%string)))
              (inr [])) as (_ & Hfail & _).
  destruct Hfail as (Hd & Hs & Hb & _).
  - right. left. eexists. reflexivity.
  - repeat split; assumption.
Defined.

(** When the save fails, the snapshot keeps the old content: the edit was
    never applied locally. *)
Lemma updateContent_failure_counterexample :
  let st := (mkState (Some (documentRecord "old")) [] [] None false None)%string in
  let out := (run (UseDocument.updateContent opts1 "new"
                     (inl (Js.ErrorObject (Js.MkError "API Error: 503")))) st)%string in
  option_map Doc.content (document (finalState out)) = Some (Some "old"%string)
  /\ option_map Doc.content (document (finalState out)) <> Some (Some "new"%string)
  /\ result out = inl (Js.ErrorObject (Js.MkError "API Error: 503"%string)).
Proof.
  intros st out. split; [reflexivity | split; [discriminate | reflexivity]].
Qed.

(** C5 (amended). For every content payload, [updateContent] issues exactly
    one persistence call and touches the local snapshot only after that call
    succeeded: on success the content of the loaded document (if any) is
    replaced by the payload; on failure the error is surfaced ([onError] is
    told and the error is rethrown) and the whole local state, content
    included, is left as it was. *)
Theorem updateContent_applies_after_success :
  forall (opts : UseDocument.Options) (st : HookState)
         (content : Doc.content_t) (r_update : response Doc.t),
    let out := run (UseDocument.updateContent opts content r_update) st in
    requests out = [UpdateDocument (UseDocument.documentId opts) content]
    /\ (forall updated,
          r_update = inr updated ->
          document (finalState out)
          = option_map (fun d => Doc.with_content d content) (document st)
          /\ (forall d, document st = Some d ->
                option_map Doc.content (document (finalState out))
                = Some (Some content))
          /\ result out = inr updated
          /\ reports out = [])
    /\ (forall err,
          r_update = inl err ->
          finalState out = st
          /\ result out
             = inl (Js.ErrorObject (Js.asError err "Failed to update document"))
          /\ reports out
             = (if UseDocument.onError opts
                then [Js.asError err "Failed to update document"] else [])).
Proof.
  intros [documentId onError] st content r_update out. subst out.
  unfold UseDocument.updateContent, UseDocument.onError_opt, run,
         requests, reports, finalState, result.
  split; [|split].
  - destruct r_update, onError; reflexivity.
  - intros updated ->. simpl.
    destruct st as [[d|] ss bs a l e]; simpl;
      (repeat split; try reflexivity; intros d' [= <-]; reflexivity)
      || (repeat split; try reflexivity; intros d' Hd; discriminate Hd).
  - intros err ->. destruct onError, st; simpl; repeat split; reflexivity.
Qed.

Lemma updateContent_applies_after_success_witness :
  let st := (mkState (Some (documentRecord "old")) [] [] None false None)%string in
  let out := (run (UseDocument.updateContent opts1 "new"
                     (inr (documentRecord "new"))) st)%string in
  option_map Doc.content (document (finalState out)) = Some (Some "new"%string).
Proof.
  intros st out.
  destruct (updateContent_applies_after_success opts1 st "new"%string
              (inr (documentRecord "new"%string))) as (_ & Hok & _).
  destruct (Hok _ eq_refl) as (_ & Hcontent & _).
  apply (Hcontent (documentRecord "old"%string)). reflexivity.
Defined.

(* ===================================================================== *)
(** * Properties of [useDocument]: deactivation                            *)
(* ===================================================================== *)

Lemma find_none {A} (f : A -> bool) (l : list A) :
  (forall x, In x l -> f x = false) -> find f l = None.
Proof.
  induction l as [|a l IH]; intros H; simpl; [reflexivity|].
  rewrite (H a (or_introl eq_refl)). apply IH.
  intros x Hx. apply H. now right.
Qed.

Lemma strictEq_false (a : option string) (b : string) :
  a <> Some b -> Js.strictEq a b = false.
Proof.
  intros H. destruct (Js.strictEq a b) eqn:E; [|reflexivity].
  apply strictEq_true in E. contradiction.
Qed.

(** C9. For a section that is not the focused one and has no active
    binding in the list, [deactivateSection] returns normally, issues no
    backend request, reports nothing and leaves the whole state as it
    was. *)
Theorem deactivateSection_noop :
  forall (opts : UseDocument.Options) (st : HookState) (sectionId : string)
         (r_deactivate : response Binding.t),
    activeSectionId st <> Some sectionId ->
    (forall b, In b (activeBindings st) ->
               Binding.section_id b = sectionId -> Binding.is_active b = false) ->
    let out := run (UseDocument.invoke
                      (fun render =>
                         UseDocument.deactivateSection opts render sectionId
                                                       r_deactivate)) st in
    finalState out = st
    /\ requests out = []
    /\ reports out = []
    /\ result out = inr tt.
Proof.
  intros opts st sectionId r_deactivate Hfocus Hnone out. subst out.
  unfold UseDocument.invoke, UseDocument.deactivateSection, run,
         requests, reports, finalState, result.
  cbn [state].
  rewrite find_none.
  - rewrite (strictEq_false _ _ Hfocus). repeat split; reflexivity.
  - intros b Hb.
    destruct (String.eqb_spec (Binding.section_id b) sectionId) as [Heq|Hne];
      [|reflexivity].
    simpl. now apply Hnone.
Qed.

Lemma deactivateSection_noop_witness :
  let st := (mkState None [sectionRecord "s1" None 0; sectionRecord "s2" None 1]
                     [bindingRecord "b1" "s1" discussion true;
                      bindingRecord "b0" "s2" editing false]
                     (Some "s1") false None)%string in
  let out := run (UseDocument.invoke
                    (fun render =>
                       UseDocument.deactivateSection opts1 render "s2"%string
                         (inl (Js.NonError "unused"%string)))) st in
  finalState out = st /\ requests out = [] /\ reports out = []
  /\ result out = inr tt.
Proof.
  intros st out.
  apply (deactivateSection_noop opts1 st "s2"%string).
  - discriminate.
  - intros b [<-|[<-|[]]]; [discriminate | reflexivity].
Defined.

(** Deactivating the focused section: one request, the binding is marked
    inactive in the local list, and the focus is cleared. *)
Lemma deactivateSection_focused :
  forall (opts : UseDocument.Options) (st : HookState) (A : string)
         (bA updated : Binding.t),
    activeSectionId st = Some A ->
    UseDocument.getActiveBinding st A = Some bA ->
    let out := run (UseDocument.invoke
                      (fun render =>
                         UseDocument.deactivateSection opts render A (inr updated)))
                   st in
    result out = inr tt
    /\ requests out
       = [UpdateSectionBinding (UseDocument.documentId opts) (Binding.id bA) false]
    /\ activeBindings (finalState out)
       = map (fun b => if (Binding.id b =? Binding.id bA)%string
                       then Binding.set_inactive b else b) (activeBindings st)
    /\ activeSectionId (finalState out) = None.
Proof.
  intros opts st A bA updated Hfocus HbA out. subst out.
  unfold UseDocument.invoke, UseDocument.deactivateSection, run,
         requests, reports, finalState, result.
  cbn [state]. unfold UseDocument.getActiveBinding in HbA. rewrite HbA.
  rewrite Hfocus. simpl Js.strictEq. rewrite String.eqb_refl.
  repeat split; reflexivity.
Qed.

Example deactivateSection_focused_scenario :
  let st := (mkState None [] [bindingRecord "b1" "s1" discussion true]
                     (Some "s1") false None)%string in
  let out := (run (UseDocument.invoke
                     (fun render =>
                        UseDocument.deactivateSection opts1 render "s1"
                          (inr (bindingRecord "b1" "s1" discussion false)))) st)%string in
  (finalState out
   = mkState None [] [bindingRecord "b1" "s1" discussion false] None false None)%string.
Proof. reflexivity. Qed.

(* ===================================================================== *)
(** * Properties of [useDocument]: deleting a section                      *)
(* ===================================================================== *)

(** Deleting the focused section leaves its binding in [activeBindings],
    still marked active, and asks the backend for nothing but the
    deletion; and deleting a section that holds an active binding while
    another section is focused leaves the focus on that other section. *)
Lemma deleteSection_binding_counterexample :
  (let b1 := (bindingRecord "b1" "s1" discussion true)%string in
   let st := (mkState None [sectionRecord "s1" None 0; sectionRecord "s2" None 1]
                      [b1] (Some "s1") false None)%string in
   let out := run (UseDocument.invoke
                     (fun render =>
                        UseDocument.deleteSection opts1 render "s1"%string (inr tt)))
                  st in
   result out = inr tt
   /\ In b1 (activeOnes (activeBindings (finalState out)))
   /\ UseDocument.getActiveBinding (finalState out) "s1"%string = Some b1
   /\ requests out = [DeleteSection "doc-1"%string "s1"%string])
  /\ (let b1 := (bindingRecord "b1" "s1" discussion true)%string in
      let b2 := (bindingRecord "b2" "s2" editing true)%string in
      let st := (mkState None [sectionRecord "s1" None 0; sectionRecord "s2" None 1]
                         [b1; b2] (Some "s2") false None)%string in
      let out := run (UseDocument.invoke
                        (fun render =>
                           UseDocument.deleteSection opts1 render "s1"%string (inr tt)))
                     st in
      UseDocument.getActiveBinding st "s1"%string = Some b1
      /\ result out = inr tt
      /\ activeSectionId (finalState out) = Some "s2"%string
      /\ activeSectionId (finalState out) <> None).
Proof.
  split.
  - intros b1 st out. repeat split; try reflexivity. simpl. now left.
  - intros b1 b2 st out.
    split; [reflexivity|]. split; [reflexivity|].
    split; [reflexivity | discriminate].
Qed.

(** C4 (amended). For every section that currently holds an active
    binding, a successful [deleteSection] of that section removes the
    section from the section list; it leaves [activeSectionId] null when
    that section is the focused one, and leaves [activeSectionId] as it was
    when another section, or none, is focused; its only persistence call is
    the section deletion, and the [activeBindings] list is not changed by it
    (the section's binding stays in the list as it was). *)
Theorem deleteSection_focused :
  forall (opts : UseDocument.Options) (st : HookState) (sectionId : string)
         (b : Binding.t),
    UseDocument.getActiveBinding st sectionId = Some b ->
    let out := run (UseDocument.invoke
                      (fun render =>
                         UseDocument.deleteSection opts render sectionId (inr tt)))
                   st in
    result out = inr tt
    /\ (activeSectionId st = Some sectionId ->
        activeSectionId (finalState out) = None)
    /\ (activeSectionId st <> Some sectionId ->
        activeSectionId (finalState out) = activeSectionId st)
    /\ sections (finalState out)
       = filter (fun s => negb (Sec.id s =? sectionId)%string) (sections st)
    /\ (forall s, In s (sections (finalState out)) -> Sec.id s <> sectionId)
    /\ requests out = [DeleteSection (UseDocument.documentId opts) sectionId]
    /\ reports out = []
    /\ activeBindings (finalState out) = activeBindings st
    /\ UseDocument.getActiveBinding (finalState out) sectionId = Some b.
Proof.
  intros opts st sectionId b Hb out. subst out.
  unfold UseDocument.invoke, UseDocument.deleteSection, run,
         requests, reports, finalState, result.
  cbn [state].
  assert (Hgone : forall s,
             In s (filter (fun s => negb (Sec.id s =? sectionId)%string) (sections st)) ->
             Sec.id s <> sectionId).
  { intros s Hs. apply filter_In in Hs as [_ Hs].
    apply negb_true_iff in Hs. now apply String.eqb_neq. }
  destruct (Js.strictEq (activeSectionId st) sectionId) eqn:Hfocus; simpl.
  - split; [reflexivity|]. split; [reflexivity|].
    split; [intros Hne; apply strictEq_true in Hfocus; contradiction|].
    repeat split; assumption.
  - split; [reflexivity|].
    split; [intros Heq; rewrite (proj2 (strictEq_true _ _) Heq) in Hfocus;
            discriminate Hfocus|].
    split; [reflexivity|].
    repeat split; assumption.
Qed.

Lemma deleteSection_focused_witness :
  let b1 := (bindingRecord "b1" "s1" discussion true)%string in
  let st := (mkState None [sectionRecord "s1" None 0; sectionRecord "s2" None 1]
                     [b1] (Some "s1") false None)%string in
  let out := run (UseDocument.invoke
                    (fun render =>
                       UseDocument.deleteSection opts1 render "s1"%string (inr tt)))
                 st in
  activeSectionId (finalState out) = None
  /\ sections (finalState out) = [sectionRecord "s2"%string None 1].
Proof.
  intros b1 st out.
  destruct (deleteSection_focused opts1 st "s1"%string b1 eq_refl)
    as (_ & Hidle & _ & Hsecs & _).
  split; [exact (Hidle eq_refl) | exact Hsecs].
Defined.

(* ===================================================================== *)
(** * Properties of [useDocument]: activation                              *)
(* ===================================================================== *)

(** With focus on [focused], the binding that [activateSection] looks up is
    the active binding of the focused section. *)
Lemma currentBinding_focused (st : HookState) (focused : string) :
  activeSectionId st = Some focused ->
  find (fun b => Js.strictEq (activeSectionId st) (Binding.section_id b)
                 && Binding.is_active b) (activeBindings st)
  = UseDocument.getActiveBinding st focused.
Proof.
  intros ->. unfold UseDocument.getActiveBinding.
  induction (activeBindings st) as [|b l IH]; simpl in *; [reflexivity|].
  rewrite (String.eqb_sym focused (Binding.section_id b)). now rewrite IH.
Qed.

Ltac unfold_activate :=
  unfold UseDocument.invoke, UseDocument.activateSection, run,
         UseDocument.onError_opt, requests, reports, finalState, result;
  cbn [state].

(** When the deactivation request fails, it is the only request made. *)
Lemma activateSection_calls_counterexample :
  let st := (mkState None [sectionRecord "A" None 0; sectionRecord "B" None 1]
                     [bindingRecord "bA" "A" discussion true]
                     (Some "A") false None)%string in
  let out := (run (UseDocument.invoke
                     (fun render =>
                        UseDocument.activateSection opts1 render "B" (Some editing) None
                          (inl (Js.ErrorObject (Js.MkError "API Error: 500")))
                          (inr (bindingRecord "bB" "B" editing true)))) st)%string in
  requests out = [UpdateSectionBinding "doc-1"%string "bA"%string false]
  /\ List.length (requests out) <> 2%nat.
Proof.
  intros st out. split; [reflexivity | discriminate].
Qed.

(** C3 (amended). For every call of [activateSection(B)] while a section A
    is focused with an active binding: if the deactivation request
    succeeds, exactly two persistence calls are made, first the one setting
    [is_active] to false on A's binding, then the one creating B's binding,
    and no other; if the deactivation request fails, it is the only call
    made. (The section B may also be A itself.) *)
Theorem activateSection_switch_calls :
  forall (opts : UseDocument.Options) (st : HookState) (A B : string)
         (bindingType : option BindingType) (messageId : option string)
         (bA : Binding.t) (r_deactivate r_create : response Binding.t),
    activeSectionId st = Some A ->
    UseDocument.getActiveBinding st A = Some bA ->
    let out := run (UseDocument.invoke
                      (fun render =>
                         UseDocument.activateSection opts render B bindingType
                           messageId r_deactivate r_create)) st in
    let deactivate :=
      UpdateSectionBinding (UseDocument.documentId opts) (Binding.id bA) false in
    let create :=
      CreateSectionBinding (UseDocument.documentId opts) B
        (match bindingType with Some t => t | None => discussion end) messageId in
    ((exists updated, r_deactivate = inr updated) ->
       requests out = [deactivate; create])
    /\ ((exists err, r_deactivate = inl err) -> requests out = [deactivate]).
Proof.
  intros [documentId onError] st A B bindingType messageId bA r_deactivate r_create
         Hfocus HbA out deactivate create.
  subst out deactivate create. unfold_activate.
  rewrite (currentBinding_focused st A Hfocus), HbA.
  split.
  - intros [updated ->]. destruct r_create, onError; reflexivity.
  - intros [err ->]. destruct onError; reflexivity.
Qed.

Lemma activateSection_switch_calls_witness :
  let st := (mkState None [sectionRecord "A" None 0; sectionRecord "B" None 1]
                     [bindingRecord "bA" "A" discussion true]
                     (Some "A") false None)%string in
  let out := (run (UseDocument.invoke
                     (fun render =>
                        UseDocument.activateSection opts1 render "B" (Some editing) None
                          (inr (bindingRecord "bA" "A" discussion false))
                          (inr (bindingRecord "bB" "B" editing true)))) st)%string in
  (requests out = [UpdateSectionBinding "doc-1" "bA" false;
                   CreateSectionBinding "doc-1" "B" editing None])%string.
Proof.
  intros st out.
  destruct (activateSection_switch_calls opts1 st "A"%string "B"%string
              (Some editing) None (bindingRecord "bA" "A" discussion true)%string
              (inr (bindingRecord "bA" "A" discussion false)%string)
              (inr (bindingRecord "bB" "B" editing true)%string)
              eq_refl eq_refl) as [Hok _].
  apply Hok. eexists. reflexivity.
Defined.




(** In a focus switch that succeeds, the binding of the section left behind
    stays in [activeBindings] as it was, still marked active, next to the
    new binding. *)
Lemma activateSection_switch_keeps_previous :
  forall (opts : UseDocument.Options) (st : HookState) (A B : string)
         (bindingType : option BindingType) (messageId : option string)
         (bA updated created : Binding.t),
    activeSectionId st = Some A ->
    UseDocument.getActiveBinding st A = Some bA ->
    A <> B ->
    let out := run (UseDocument.invoke
                      (fun render =>
                         UseDocument.activateSection opts render B bindingType
                           messageId (inr updated) (inr created))) st in
    result out = inr created
    /\ activeSectionId (finalState out) = Some B
    /\ In bA (activeBindings (finalState out))
    /\ Binding.is_active bA = true
    /\ In created (activeBindings (finalState out)).
Proof.
  intros [documentId onError] st A B bindingType messageId bA updated created
         Hfocus HbA Hne out.
  subst out. unfold_activate.
  rewrite (currentBinding_focused st A Hfocus), HbA. simpl.
  apply find_some in HbA as [Hin Hp].
  apply andb_true_iff in Hp as [Hsec Hact].
  apply String.eqb_eq in Hsec.
  repeat split; try assumption.
  - apply in_or_app. left. apply filter_In. split; [assumption|].
    apply orb_true_iff. left. apply negb_true_iff, String.eqb_neq. congruence.
  - apply in_or_app. right. now left.
Qed.

(** C1 (the code departs from the claim). Starting with no binding and no
    focus, [activateSection("s1", "discussion")] followed by
    [activateSection("s2", "editing")], both fully successful: the backend
    is asked to deactivate the binding of s1, but the local list ends with
    both bindings marked active. *)
Theorem activate_twice_two_active :
  let b1 := (bindingRecord "b1" "s1" discussion true)%string in
  let b2 := (bindingRecord "b2" "s2" editing true)%string in
  let session :=
    [Activate "s1" (Some discussion) None (inl (Js.NonError "unused")) (inr b1);
     Activate "s2" (Some editing) None (inr (Binding.set_inactive b1)) (inr b2)]%string in
  let start := mkState None [] [] None false None in
  observedStates opts1 session start
  = [start;
     mkState None [] [b1] (Some "s1"%string) false None;
     mkState None [] [b1; b2] (Some "s2"%string) false None]
  /\ requests (run (runSession opts1 session) start)
     = [CreateSectionBinding "doc-1" "s1" discussion None;
        UpdateSectionBinding "doc-1" "b1" false;
        CreateSectionBinding "doc-1" "s2" editing None]%string
  /\ activeOnes [b1; b2] = [b1; b2]
  /\ ~ atMostOneActive (activeBindings (last (observedStates opts1 session start) start)).
Proof.
  intros b1 b2 session start.
  split; [reflexivity|]. split; [reflexivity|]. split; [reflexivity|].
  unfold atMostOneActive. simpl. lia.
Qed.

(* ===================================================================== *)
(** * Further properties of [getUserColor]                                 *)
(* ===================================================================== *)

Lemma shl5_multiple (h : Z) : exists k, Js.shl h 5 = 32 * k.
Proof.
  unfold Js.shl. rewrite Z.shiftl_mul_pow2 by lia.
  set (a := Js.toInt32 h). unfold Js.toInt32.
  exists ((a + 2 ^ 26) mod 2 ^ 27 - 2 ^ 26).
  replace (a * 2 ^ 5 + 2 ^ 31) with (32 * (a + 2 ^ 26)) by lia.
  replace (2 ^ 32) with (32 * 2 ^ 27) by lia.
  rewrite Z.mul_mod_distr_l by lia. lia.
Qed.

Lemma hash_step_mod32 (h h' c : Z) :
  h mod 32 = h' mod 32 ->
  Liveblocks.hash_step h c mod 32 = (c - h') mod 32.
Proof.
  intros Hh. unfold Liveblocks.hash_step.
  destruct (shl5_multiple h) as [k ->].
  replace (c + (32 * k - h)) with ((c - h) + k * 32) by lia.
  rewrite Z.mod_add by lia.
  rewrite Zminus_mod, Hh, <- Zminus_mod. reflexivity.
Qed.

Lemma fold_hash_mod32 (u : Js.codeUnits) :
  forall h h', h mod 32 = h' mod 32 ->
    fold_left Liveblocks.hash_step u h mod 32
    = fold_left (fun acc c => c - acc) u h' mod 32.
Proof.
  induction u as [|c u IH]; intros h h' Hh; simpl; [assumption|].
  apply IH. now apply hash_step_mod32.
Qed.

(** X1. While the running hash lies within plus or minus 2^26 the shift
    does not wrap, and one round of the loop is the classic
    [31 * hash + c]. *)
Theorem hash_step_is_31h_plus_c :
  forall h c : Z,
    - 2 ^ 26 <= h < 2 ^ 26 ->
    Liveblocks.hash_step h c = 31 * h + c.
Proof.
  intros h c Hh. unfold Liveblocks.hash_step, Js.shl.
  rewrite (toInt32_small h) by lia.
  rewrite Z.shiftl_mul_pow2 by lia.
  rewrite toInt32_small by lia. lia.
Qed.

Lemma hash_step_is_31h_plus_c_witness :
  Liveblocks.hash_step 97 98 = 31 * 97 + 98.
Proof. apply hash_step_is_31h_plus_c. lia. Defined.

(** X2. For an identifier of fewer than 2^21 code units (each in
    0..65535), the range in which every number of the loop is an integer
    held exactly, the hash agrees with the alternating sum of the code units
    modulo 32, whatever the 32-bit wrapping of the shift does; so the
    palette index, the absolute value of the hash modulo 8, is decided by
    that sum modulo 8 and by the sign of the hash. *)
Theorem hash_congruent_alternating_sum :
  forall userId : Js.codeUnits,
    Forall (fun c => 0 <= c <= 65535) userId ->
    Z.of_nat (List.length userId) < 2 ^ 21 ->
    Z.abs (Liveblocks.hash_of userId) < 2 ^ 53
    /\ Liveblocks.hash_of userId mod 32 = alternatingSum userId mod 32
    /\ Z.abs (Liveblocks.hash_of userId) mod 8
       = (if 0 <=? Liveblocks.hash_of userId
          then alternatingSum userId mod 8
          else (- alternatingSum userId) mod 8).
Proof.
  intros userId Hunits Hlen.
  split.
  { pose proof (fold_hash_bound userId Hunits 0) as Hb.
    unfold Liveblocks.hash_of. simpl Z.abs in Hb. nia. }
  assert (H32 : Liveblocks.hash_of userId mod 32 = alternatingSum userId mod 32)
    by (apply fold_hash_mod32; reflexivity).
  split; [exact H32|].
  assert (H8 : Liveblocks.hash_of userId mod 8 = alternatingSum userId mod 8).
  { rewrite <- (Z.mod_mod_divide (Liveblocks.hash_of userId) 32 8)
      by (exists 4; lia).
    rewrite <- (Z.mod_mod_divide (alternatingSum userId) 32 8)
      by (exists 4; lia).
    now rewrite H32. }
  destruct (Z.leb_spec 0 (Liveblocks.hash_of userId)) as [Hpos|Hneg].
  - now rewrite Z.abs_eq.
  - rewrite Z.abs_neq by lia.
    rewrite <- (Z.sub_0_l (Liveblocks.hash_of userId)),
            <- (Z.sub_0_l (alternatingSum userId)).
    rewrite Zminus_mod, H8, <- Zminus_mod. reflexivity.
Qed.

Lemma hash_congruent_alternating_sum_witness :
  Liveblocks.hash_of (Js.code_units "user-42") mod 32
  = alternatingSum (Js.code_units "user-42") mod 32.
Proof.
  destruct (hash_congruent_alternating_sum (Js.code_units "user-42"))
    as (_ & H32 & _).
  - repeat constructor; simpl; lia.
  - simpl. lia.
  - exact H32.
Defined.

(** X3. For an identifier of fewer than 2^21 code units (each in 0..65535)
    the hash stays below 2^53 in absolute value: every number the loop
    produces is an integer that a double holds exactly. *)
Theorem hash_within_double_precision :
  forall userId : Js.codeUnits,
    Forall (fun c => 0 <= c <= 65535) userId ->
    Z.of_nat (List.length userId) < 2 ^ 21 ->
    Z.abs (Liveblocks.hash_of userId) < 2 ^ 53.
Proof.
  intros userId Hunits Hlen.
  pose proof (fold_hash_bound userId Hunits 0) as Hb.
  unfold Liveblocks.hash_of. simpl Z.abs in Hb. nia.
Qed.

Lemma hash_within_double_precision_witness :
  Z.abs (Liveblocks.hash_of (Js.code_units "user-42")) < 2 ^ 53.
Proof.
  apply hash_within_double_precision.
  - repeat constructor; simpl; lia.
  - simpl. lia.
Defined.

(* ===================================================================== *)
(** * Properties of the token endpoint                                     *)
(* ===================================================================== *)

Lemma startsWith_app (p s : Js.codeUnits) : JsString.startsWith p (p ++ s) = true.
Proof.
  induction p as [|a p IH]; simpl; [reflexivity|].
  now rewrite Z.eqb_refl, IH.
Qed.

Lemma replace_prefix (p r s : Js.codeUnits) :
  JsString.replace p r (p ++ s) = r ++ s.
Proof.
  destruct (p ++ s) as [|c t] eqn:E; simpl.
  - rewrite <- E, startsWith_app. destruct p; [|discriminate E].
    simpl in E. subst s. reflexivity.
  - rewrite <- E, startsWith_app.
    rewrite skipn_app, skipn_all, Nat.sub_diag. reflexivity.
Qed.

Lemma replace_absent (p r s : Js.codeUnits) :
  JsString.includes p s = false -> JsString.replace p r s = s.
Proof.
  induction s as [|c s IH]; simpl; intros H.
  - apply orb_false_iff in H as [-> _]. reflexivity.
  - apply orb_false_iff in H as [-> H]. now rewrite IH.
Qed.

(** X4. Round trip of the room name: for a room named ["session-" + id]
    the endpoint extracts exactly [id], whatever [id] is, and sends its one
    request to [/api/v1/sessions/id/liveblocks-token]; a room name that
    does not contain ["session-"] is used unchanged as the identifier. *)
Theorem room_name_round_trip :
  forall (id : Js.codeUnits) (r_fetch : response TokenEndpoint.FetchResponse),
    TokenEndpoint.sessionIdOf (Js.code_units "session-" ++ id) = id
    /\ fst (TokenEndpoint.authEndpoint (Some (Js.code_units "session-" ++ id)) r_fetch)
       = [TokenEndpoint.mkRequest (TokenEndpoint.tokenUrl id)]
    /\ (JsString.includes (Js.code_units "session-") id = false ->
        TokenEndpoint.sessionIdOf id = id).
Proof.
  intros id r_fetch.
  assert (Hid : TokenEndpoint.sessionIdOf (Js.code_units "session-" ++ id) = id)
    by apply (replace_prefix (Js.code_units "session-") [] id).
  split; [exact Hid|]. split.
  - unfold TokenEndpoint.authEndpoint.
    change (Js.code_units "session-" ++ id)
      with (115 :: (Js.code_units "ession-" ++ id)) at 1.
    cbv beta iota.
    change (115 :: (Js.code_units "ession-" ++ id))
      with (Js.code_units "session-" ++ id).
    rewrite Hid.
    destruct r_fetch as [err|[[] [err|token]]]; reflexivity.
  - apply replace_absent.
Qed.

Lemma room_name_round_trip_witness :
  TokenEndpoint.sessionIdOf (Js.code_units "room-7") = Js.code_units "room-7".
Proof.
  destruct (room_name_round_trip (Js.code_units "room-7")
              (inl (Js.NonError "offline"%string))) as (_ & _ & Hplain).
  apply Hplain. reflexivity.
Defined.

(** Only the first occurrence is removed. *)
Example sessionIdOf_first_only :
  TokenEndpoint.sessionIdOf (Js.code_units "session-session-9")
  = Js.code_units "session-9"
  /\ TokenEndpoint.sessionIdOf (Js.code_units "my-session-9")
     = Js.code_units "my-9".
Proof. split; reflexivity. Qed.

(** X5. The endpoint sends nothing when the room is missing or empty, and
    rejects with "Room ID is required"; whenever it yields a token, one
    request was sent, the response was ok and the token is the one of the
    response body. *)
Theorem authEndpoint_token_only_when_ok :
  forall (room : option Js.codeUnits)
         (r_fetch : response TokenEndpoint.FetchResponse),
    ((room = None \/ room = Some []) ->
       TokenEndpoint.authEndpoint room r_fetch
       = ([], inl (Js.ErrorObject (Js.MkError "Room ID is required"))))
    /\ (forall token,
          snd (TokenEndpoint.authEndpoint room r_fetch) = inr token ->
          exists name resp,
            room = Some name /\ name <> []
            /\ r_fetch = inr resp
            /\ TokenEndpoint.ok resp = true
            /\ TokenEndpoint.json resp = inr token
            /\ fst (TokenEndpoint.authEndpoint room r_fetch)
               = [TokenEndpoint.mkRequest
                    (TokenEndpoint.tokenUrl (TokenEndpoint.sessionIdOf name))]).
Proof.
  intros room r_fetch. split.
  - intros [-> | ->]; reflexivity.
  - intros token H.
    destruct room as [[|c name]|]; try discriminate H.
    unfold TokenEndpoint.authEndpoint in *.
    destruct r_fetch as [err|[[] [err|t]]]; try discriminate H.
    simpl in H. injection H as ->.
    exists (c :: name), (TokenEndpoint.mkFetchResponse true (inr token)).
    repeat split; discriminate.
Qed.

Lemma authEndpoint_token_only_when_ok_witness :
  TokenEndpoint.authEndpoint (Some [])
    (inr (TokenEndpoint.mkFetchResponse true (inr "tok"%string)))
  = ([], inl (Js.ErrorObject (Js.MkError "Room ID is required"))).
Proof.
  destruct (authEndpoint_token_only_when_ok (Some [])
              (inr (TokenEndpoint.mkFetchResponse true (inr "tok"%string))))
    as [Hmissing _].
  apply Hmissing. right. reflexivity.
Defined.

(* ===================================================================== *)
(** * Further properties of [useDocument]: the binding list                *)
(* ===================================================================== *)

Lemma find_app_l {A} (f : A -> bool) (l1 l2 : list A) :
  find f (l1 ++ l2) = match find f l1 with Some x => Some x | None => find f l2 end.
Proof.
  induction l1 as [|a l1 IH]; simpl; [reflexivity|].
  destruct (f a); [reflexivity | apply IH].
Qed.

Lemma find_filter_keep {A} (f keep : A -> bool) (l : list A) :
  (forall x, f x = true -> keep x = true) ->
  find f (filter keep l) = find f l.
Proof.
  intros H. induction l as [|a l IH]; simpl; [reflexivity|].
  destruct (keep a) eqn:Hk; simpl.
  - destruct (f a); [reflexivity | apply IH].
  - destruct (f a) eqn:Hf; [|apply IH].
    apply H in Hf. congruence.
Qed.

Lemma find_filter_none {A} (f keep : A -> bool) (l : list A) :
  (forall x, f x = true -> keep x = false) ->
  find f (filter keep l) = None.
Proof.
  intros H. apply find_none. intros x Hx.
  apply filter_In in Hx as [_ Hk].
  destruct (f x) eqn:Hf; [|reflexivity].
  apply H in Hf. congruence.
Qed.

(** What a fulfilled [activateSection] leaves in the state. *)
Lemma activateSection_fulfilled :
  forall (opts : UseDocument.Options) (st : HookState) (B : string)
         (bindingType : option BindingType) (messageId : option string)
         (r_deactivate r_create : response Binding.t) (created : Binding.t),
    let out := run (UseDocument.invoke
                      (fun render =>
                         UseDocument.activateSection opts render B bindingType
                           messageId r_deactivate r_create)) st in
    result out = inr created ->
    r_create = inr created
    /\ finalState out
       = mkState (document st) (sections st)
           (filter (fun b => negb (Binding.section_id b =? B)%string
                             || negb (Binding.is_active b)) (activeBindings st)
            ++ [created])
           (Some B) (isLoading st) (error st).
Proof.
  intros [documentId onError] st B bindingType messageId r_deactivate r_create
         created out.
  subst out. unfold_activate.
  destruct (find _ (activeBindings st)) as [cb|];
    [destruct r_deactivate as [e1|u]|];
    destruct r_create as [e2|c]; destruct onError; simpl;
    intros H; try discriminate H; injection H as ->; split; reflexivity.
Qed.

(** What a rejected [activateSection] leaves in the state. *)
Lemma activateSection_rejected :
  forall (opts : UseDocument.Options) (st : HookState) (B : string)
         (bindingType : option BindingType) (messageId : option string)
         (r_deactivate r_create : response Binding.t) (x : Js.thrown),
    let out := run (UseDocument.invoke
                      (fun render =>
                         UseDocument.activateSection opts render B bindingType
                           messageId r_deactivate r_create)) st in
    result out = inl x ->
    finalState out = st /\ exists e, x = Js.ErrorObject e.
Proof.
  intros [documentId onError] st B bindingType messageId r_deactivate r_create
         x out.
  subst out. unfold_activate.
  destruct (find _ (activeBindings st)) as [cb|];
    [destruct r_deactivate as [e1|u]|];
    destruct r_create as [e2|c]; destruct onError; simpl;
    intros H; try discriminate H; injection H as <-;
    (split; [destruct st; reflexivity | eexists; reflexivity]).
Qed.

(** X6. After a fulfilled [activateSection(B)] whose new binding is an
    active binding on B: the focus is B, the active binding looked up for B
    is the new one, and the active binding looked up for any other section
    is the one it was before the call. *)
Theorem activateSection_replaces_active_binding :
  forall (opts : UseDocument.Options) (st : HookState) (B : string)
         (bindingType : option BindingType) (messageId : option string)
         (r_deactivate r_create : response Binding.t) (created : Binding.t),
    let out := run (UseDocument.invoke
                      (fun render =>
                         UseDocument.activateSection opts render B bindingType
                           messageId r_deactivate r_create)) st in
    result out = inr created ->
    Binding.section_id created = B ->
    Binding.is_active created = true ->
    UseDocument.isSectionActive (finalState out) B = true
    /\ UseDocument.getActiveBinding (finalState out) B = Some created
    /\ (forall S, S <> B ->
          UseDocument.getActiveBinding (finalState out) S
          = UseDocument.getActiveBinding st S).
Proof.
  intros opts st B bindingType messageId r_deactivate r_create created out
         Hres Hsec Hact.
  destruct (activateSection_fulfilled opts st B bindingType messageId
              r_deactivate r_create created Hres) as [_ Hst].
  fold out in Hst. rewrite Hst.
  unfold UseDocument.isSectionActive, UseDocument.getActiveBinding. cbn.
  split; [apply String.eqb_refl|]. split.
  - rewrite find_app_l, find_filter_none.
    + simpl. now rewrite Hsec, String.eqb_refl, Hact.
    + intros b Hb. apply andb_true_iff in Hb as [-> ->]. reflexivity.
  - intros S HS. rewrite find_app_l, find_filter_keep.
    + destruct (find _ (activeBindings st)); [reflexivity|].
      simpl. rewrite Hsec.
      apply String.eqb_neq in HS. rewrite String.eqb_sym in HS.
      now rewrite HS.
    + intros b Hb. apply andb_true_iff in Hb as [Hb _].
      apply String.eqb_eq in Hb. subst S.
      apply String.eqb_neq in HS. now rewrite HS.
Qed.

Lemma activateSection_replaces_active_binding_witness :
  let st := (mkState None [] [bindingRecord "b1" "s1" discussion true]
                     (Some "s1") false None)%string in
  let created := (bindingRecord "b2" "s1" approval true)%string in
  let out := run (UseDocument.invoke
                    (fun render =>
                       UseDocument.activateSection opts1 render "s1"%string
                         (Some approval) None
                         (inr (bindingRecord "b1" "s1" discussion false)%string)
                         (inr created))) st in
  UseDocument.getActiveBinding (finalState out) "s1"%string = Some created.
Proof.
  intros st created out.
  destruct (activateSection_replaces_active_binding opts1 st "s1"%string
              (Some approval) None
              (inr (bindingRecord "b1" "s1" discussion false)%string)
              (inr created) created eq_refl eq_refl eq_refl) as (_ & H & _).
  exact H.
Defined.

Ltac unfold_deactivate :=
  unfold UseDocument.invoke, UseDocument.deactivateSection, run,
         UseDocument.onError_opt, requests, reports, finalState, result;
  cbn [state].

(** The list update of [deactivateSection]: bindings carrying the id of
    the binding found are marked inactive. *)
Lemma deactivateSection_fulfilled :
  forall (opts : UseDocument.Options) (st : HookState) (A : string)
         (r_deactivate : response Binding.t),
    let out := run (UseDocument.invoke
                      (fun render =>
                         UseDocument.deactivateSection opts render A r_deactivate))
                   st in
    result out = inr tt ->
    finalState out
    = mkState (document st) (sections st)
        (match UseDocument.getActiveBinding st A with
         | Some found =>
             map (fun b => if (Binding.id b =? Binding.id found)%string
                           then Binding.set_inactive b else b) (activeBindings st)
         | None => activeBindings st
         end)
        (if Js.strictEq (activeSectionId st) A then None else activeSectionId st)
        (isLoading st) (error st)
    /\ requests out
       = match UseDocument.getActiveBinding st A with
         | Some found =>
             [UpdateSectionBinding (UseDocument.documentId opts) (Binding.id found) false]
         | None => []
         end.
Proof.
  intros [documentId onError] st A r_deactivate out. subst out.
  unfold_deactivate. unfold UseDocument.getActiveBinding.
  destruct (find _ (activeBindings st)) as [found|];
    [destruct r_deactivate as [e|u]|];
    destruct (Js.strictEq (activeSectionId st) A), onError; simpl;
    intros H; try discriminate H; destruct st; split; reflexivity.
Qed.

Lemma deactivateSection_rejected :
  forall (opts : UseDocument.Options) (st : HookState) (A : string)
         (r_deactivate : response Binding.t) (x : Js.thrown),
    let out := run (UseDocument.invoke
                      (fun render =>
                         UseDocument.deactivateSection opts render A r_deactivate))
                   st in
    result out = inl x ->
    finalState out = st /\ exists e, x = Js.ErrorObject e.
Proof.
  intros [documentId onError] st A r_deactivate x out. subst out.
  unfold_deactivate.
  destruct (find _ (activeBindings st)) as [found|];
    [destruct r_deactivate as [e|u]|];
    destruct (Js.strictEq (activeSectionId st) A), onError; simpl;
    intros H; try discriminate H; injection H as <-;
    (split; [destruct st; reflexivity | eexists; reflexivity]).
Qed.

(** The state a command of a session leaves is the state its callback
    leaves. *)
Lemma runCommand_state (opts : UseDocument.Options) (c : Command) (st : HookState) :
  state (fst (runCommand opts c (mkWorld st [])))
  = match c with
    | Activate B bindingType messageId r_deactivate r_create =>
        finalState (run (UseDocument.invoke
                           (fun render =>
                              UseDocument.activateSection opts render B bindingType
                                messageId r_deactivate r_create)) st)
    | Deactivate A r_deactivate =>
        finalState (run (UseDocument.invoke
                           (fun render =>
                              UseDocument.deactivateSection opts render A
                                r_deactivate)) st)
    end.
Proof.
  destruct c as [B bindingType messageId r_deactivate r_create | A r_deactivate];
    [|reflexivity].
  unfold runCommand, bind, run, finalState.
  destruct (UseDocument.invoke _ _) as [w [e|b]]; reflexivity.
Qed.

Lemma filter_filter_nil {A} (p q : A -> bool) (l : list A) :
  (forall x, p x = true -> q x = false) -> filter p (filter q l) = [].
Proof.
  intros H. induction l as [|a l IH]; simpl; [reflexivity|].
  destruct (q a) eqn:Hq; [|assumption]. simpl.
  destruct (p a) eqn:Hp; [|assumption].
  apply H in Hp. congruence.
Qed.

Lemma filter_filter_le {A} (p q : A -> bool) (l : list A) :
  (List.length (filter p (filter q l)) <= List.length (filter p l))%nat.
Proof.
  induction l as [|a l IH]; simpl; [lia|].
  destruct (q a) eqn:Hq, (p a) eqn:Hp; simpl; rewrite ?Hp; simpl; lia.
Qed.

Lemma activeFor_deactivated (S bid : string) (l : list Binding.t) :
  (List.length
     (activeFor S (map (fun b => if (Binding.id b =? bid)%string
                                 then Binding.set_inactive b else b) l))
   <= List.length (activeFor S l))%nat.
Proof.
  unfold activeFor. induction l as [|b l IH]; simpl; [lia|].
  destruct (Binding.id b =? bid)%string; simpl.
  - rewrite andb_false_r.
    destruct (_ && _); simpl; lia.
  - destruct (_ && _); simpl; lia.
Qed.

(** One command keeps the per-section property. *)
Lemma runCommand_keeps_oneActivePerSection
    (opts : UseDocument.Options) (c : Command) (st : HookState) :
  answersRequest c ->
  oneActivePerSection (activeBindings st) ->
  oneActivePerSection (activeBindings (state (fst (runCommand opts c (mkWorld st []))))).
Proof.
  intros Hc Hinv. rewrite runCommand_state.
  destruct c as [B bindingType messageId r_deactivate r_create | A r_deactivate].
  - destruct (result (run (UseDocument.invoke
                (fun render => UseDocument.activateSection opts render B bindingType
                                 messageId r_deactivate r_create)) st)) as [x|created] eqn:Hres.
    + apply activateSection_rejected in Hres as [-> _]. exact Hinv.
    + apply activateSection_fulfilled in Hres as [-> ->]. simpl in Hc. cbn.
      intros S. unfold activeFor. rewrite filter_app, length_app.
      destruct (String.eqb_spec S B) as [->|Hne].
      * rewrite filter_filter_nil.
        -- simpl. destruct (_ && _); simpl; lia.
        -- intros b Hb. apply andb_true_iff in Hb as [-> ->]. reflexivity.
      * simpl. rewrite Hc.
        assert (HBS : (B =? S)%string = false)
          by (apply String.eqb_neq; congruence).
        rewrite HBS. simpl.
        pose proof (filter_filter_le
                      (fun b => (Binding.section_id b =? S)%string && Binding.is_active b)
                      (fun b => negb (Binding.section_id b =? B)%string
                                || negb (Binding.is_active b))
                      (activeBindings st)).
        specialize (Hinv S). unfold activeFor in Hinv. lia.
  - destruct (result (run (UseDocument.invoke
                (fun render => UseDocument.deactivateSection opts render A
                                 r_deactivate)) st)) as [x|[]] eqn:Hres.
    + apply deactivateSection_rejected in Hres as [-> _]. exact Hinv.
    + apply deactivateSection_fulfilled in Hres as [-> _]. cbn.
      destruct (UseDocument.getActiveBinding st A) as [found|]; [|exact Hinv].
      intros S. pose proof (activeFor_deactivated S (Binding.id found) (activeBindings st)).
      specialize (Hinv S). lia.
Qed.

(** X7. Through any session of [activateSection] / [deactivateSection]
    calls in which the backend answers each create request with a binding on
    the requested section, no section ever has two active bindings in the
    list, provided that held at the start. *)
Theorem session_keeps_oneActivePerSection :
  forall (opts : UseDocument.Options) (cmds : list Command) (st : HookState),
    Forall answersRequest cmds ->
    oneActivePerSection (activeBindings st) ->
    Forall (fun s => oneActivePerSection (activeBindings s))
           (observedStates opts cmds st).
Proof.
  intros opts cmds. induction cmds as [|c cmds IH]; intros st Hcmds Hinv.
  - simpl. constructor; [assumption | constructor].
  - inversion Hcmds as [|? ? Hc Hrest]; subst.
    simpl. constructor; [assumption|].
    apply IH; [assumption|].
    now apply runCommand_keeps_oneActivePerSection.
Qed.

Lemma session_keeps_oneActivePerSection_witness :
  let b1 := (bindingRecord "b1" "s1" discussion true)%string in
  let b2 := (bindingRecord "b2" "s2" editing true)%string in
  let session :=
    [Activate "s1" (Some discussion) None (inl (Js.NonError "unused")) (inr b1);
     Activate "s2" (Some editing) None (inr (Binding.set_inactive b1)) (inr b2);
     Deactivate "s1" (inr (Binding.set_inactive b1))]%string in
  Forall (fun s => oneActivePerSection (activeBindings s))
         (observedStates opts1 session (mkState None [] [] None false None)).
Proof.
  intros b1 b2 session.
  apply session_keeps_oneActivePerSection.
  - repeat constructor.
  - intros S. simpl. lia.
Defined.

(** X8. A session of [activateSection] / [deactivateSection] calls never
    changes the document, the section list, the loading flag or the error
    cell, whatever the backend answers. *)
Theorem session_leaves_document_cells :
  forall (opts : UseDocument.Options) (cmds : list Command) (st : HookState),
    Forall (fun s => sameDocumentCells s st) (observedStates opts cmds st).
Proof.
  intros opts cmds. induction cmds as [|c cmds IH]; intros st.
  - simpl. repeat constructor.
  - simpl. constructor; [repeat split|].
    set (st1 := state (fst (runCommand opts c (mkWorld st [])))).
    assert (H1 : sameDocumentCells st1 st).
    { subst st1. rewrite runCommand_state.
      destruct c as [B bindingType messageId r_deactivate r_create | A r_deactivate].
      - destruct (result (run (UseDocument.invoke
                    (fun render => UseDocument.activateSection opts render B bindingType
                                     messageId r_deactivate r_create)) st))
          as [x|created] eqn:Hres.
        + apply activateSection_rejected in Hres as [-> _]. repeat split.
        + apply activateSection_fulfilled in Hres as [_ ->]. repeat split.
      - destruct (result (run (UseDocument.invoke
                    (fun render => UseDocument.deactivateSection opts render A
                                     r_deactivate)) st)) as [x|[]] eqn:Hres.
        + apply deactivateSection_rejected in Hres as [-> _]. repeat split.
        + apply deactivateSection_fulfilled in Hres as [-> _]. repeat split. }
    eapply Forall_impl; [|apply IH].
    intros s (Hd & Hs & Hl & He). destruct H1 as (Hd1 & Hs1 & Hl1 & He1).
    repeat split; congruence.
Qed.



Lemma activeFor_found_drops (A : string) (found : Binding.t) (l : list Binding.t) :
  find (fun b => (Binding.section_id b =? A)%string && Binding.is_active b) l
  = Some found ->
  (S (List.length
        (activeFor A (map (fun b => if (Binding.id b =? Binding.id found)%string
                                    then Binding.set_inactive b else b) l)))
   <= List.length (activeFor A l))%nat.
Proof.
  unfold activeFor. induction l as [|b l IH]; simpl; [discriminate|].
  destruct ((Binding.section_id b =? A)%string && Binding.is_active b) eqn:Hb.
  - intros [= ->]. rewrite String.eqb_refl. simpl. rewrite andb_false_r. simpl.
    pose proof (activeFor_deactivated A (Binding.id found) l) as Hle.
    unfold activeFor in Hle. lia.
  - intros Hfind. specialize (IH Hfind).
    destruct (Binding.id b =? Binding.id found)%string; simpl.
    + rewrite andb_false_r. exact IH.
    + rewrite Hb. exact IH.
Qed.

Lemma activeFor_nil_find (A : string) (l : list Binding.t) :
  activeFor A l = [] ->
  find (fun b => (Binding.section_id b =? A)%string && Binding.is_active b) l = None.
Proof.
  unfold activeFor. induction l as [|b l IH]; simpl; [reflexivity|].
  destruct (_ && _); [discriminate | exact IH].
Qed.

(** With no active binding found for the section and the focus elsewhere,
    [deactivateSection] does nothing. *)
Lemma deactivateSection_noop_like :
  forall (opts : UseDocument.Options) (st : HookState) (A : string)
         (r_deactivate : response Binding.t),
    activeSectionId st <> Some A ->
    UseDocument.getActiveBinding st A = None ->
    let out := run (UseDocument.invoke
                      (fun render =>
                         UseDocument.deactivateSection opts render A r_deactivate))
                   st in
    finalState out = st /\ requests out = [] /\ reports out = []
    /\ result out = inr tt.
Proof.
  intros opts st A r_deactivate Hfocus Hnone out. subst out.
  unfold_deactivate. unfold UseDocument.getActiveBinding in Hnone.
  rewrite Hnone, (strictEq_false _ _ Hfocus). repeat split; reflexivity.
Qed.

(** X10. Deactivating twice: when the section has at most one active
    binding in the list, a fulfilled [deactivateSection(A)] leaves nothing
    for a second one to do; the second call sends no request, reports
    nothing and changes nothing. *)
Theorem deactivateSection_twice :
  forall (opts : UseDocument.Options) (st : HookState) (A : string)
         (r_first r_second : response Binding.t),
    (List.length (activeFor A (activeBindings st)) <= 1)%nat ->
    let first := run (UseDocument.invoke
                        (fun render =>
                           UseDocument.deactivateSection opts render A r_first)) st in
    result first = inr tt ->
    let second := run (UseDocument.invoke
                         (fun render =>
                            UseDocument.deactivateSection opts render A r_second))
                      (finalState first) in
    finalState second = finalState first
    /\ requests second = []
    /\ reports second = []
    /\ result second = inr tt
    /\ UseDocument.getActiveBinding (finalState first) A = None
    /\ UseDocument.isSectionActive (finalState first) A = false.
Proof.
  intros opts st A r_first r_second Hone first Hres second.
  destruct (deactivateSection_fulfilled opts st A r_first Hres) as [Hst _].
  fold first in Hst.
  assert (Hnone : UseDocument.getActiveBinding (finalState first) A = None).
  { destruct (UseDocument.getActiveBinding st A) as [found|] eqn:Hfound;
      rewrite Hst; unfold UseDocument.getActiveBinding; cbn.
    - apply activeFor_nil_find.
      pose proof (activeFor_found_drops A found (activeBindings st) Hfound) as Hdrop.
      destruct (activeFor A (map _ (activeBindings st))); [reflexivity|].
      simpl in Hdrop. lia.
    - exact Hfound. }
  assert (Hfocus : activeSectionId (finalState first) <> Some A).
  { rewrite Hst. cbn.
    destruct (Js.strictEq (activeSectionId st) A) eqn:E; [discriminate|].
    intros H. apply strictEq_true in H. congruence. }
  assert (Hnoop := deactivateSection_noop_like opts (finalState first) A r_second
                     Hfocus Hnone).
  destruct Hnoop as (H1 & H2 & H3 & H4).
  repeat split; try assumption.
  unfold UseDocument.isSectionActive. now apply strictEq_false.
Qed.

Lemma deactivateSection_twice_witness :
  let st := (mkState None [] [bindingRecord "b1" "s1" discussion true]
                     (Some "s1") false None)%string in
  let first := run (UseDocument.invoke
                      (fun render =>
                         UseDocument.deactivateSection opts1 render "s1"%string
                           (inr (bindingRecord "b1" "s1" discussion false)%string)))
                   st in
  let second := run (UseDocument.invoke
                       (fun render =>
                          UseDocument.deactivateSection opts1 render "s1"%string
                            (inl (Js.NonError "offline"%string))))
                    (finalState first) in
  finalState second = finalState first /\ requests second = [].
Proof.
  intros st first second.
  destruct (deactivateSection_twice opts1 st "s1"%string
              (inr (bindingRecord "b1" "s1" discussion false)%string)
              (inl (Js.NonError "offline"%string)))
    as (H1 & H2 & _).
  - simpl. lia.
  - reflexivity.
  - split; assumption.
Defined.

(* ===================================================================== *)
(** * Further properties of [useDocument]: sections                        *)
(* ===================================================================== *)

Lemma filter_app_single {A} (f : A -> bool) (l : list A) (x : A) :
  filter f (l ++ [x]) = if f x then filter f l ++ [x] else filter f l.
Proof.
  rewrite filter_app. simpl. destruct (f x); [reflexivity | apply app_nil_r].
Qed.

(** X11. Deleting a section that is not the focused one keeps the focus
    and the bindings; whichever section is deleted, exactly the sections
    carrying that id leave the list, the id can no longer be looked up, and
    every other id is looked up as before. *)
Theorem deleteSection_other_section :
  forall (opts : UseDocument.Options) (st : HookState) (sectionId : string),
    let out := run (UseDocument.invoke
                      (fun render =>
                         UseDocument.deleteSection opts render sectionId (inr tt)))
                   st in
    (activeSectionId st <> Some sectionId ->
       activeSectionId (finalState out) = activeSectionId st)
    /\ activeBindings (finalState out) = activeBindings st
    /\ document (finalState out) = document st
    /\ (forall s, In s (sections (finalState out))
                  <-> In s (sections st) /\ Sec.id s <> sectionId)
    /\ UseDocumentSections.getSectionById (finalState out) sectionId = None
    /\ (forall other, other <> sectionId ->
          UseDocumentSections.getSectionById (finalState out) other
          = UseDocumentSections.getSectionById st other).
Proof.
  intros [documentId onError] st sectionId out. subst out.
  unfold UseDocument.invoke, UseDocument.deleteSection, run, finalState,
         UseDocumentSections.getSectionById.
  cbn [state].
  destruct (Js.strictEq (activeSectionId st) sectionId) eqn:E; cbn;
    (split; [intros Hfocus; try reflexivity;
             apply strictEq_true in E; contradiction|]);
    (split; [reflexivity|]); (split; [reflexivity|]);
    (split; [intros s; rewrite filter_In, negb_true_iff, String.eqb_neq;
             reflexivity|]);
    (split; [apply find_filter_none; intros x ->; reflexivity|]);
    intros other Hother; apply find_filter_keep; intros x Hx;
    apply String.eqb_eq in Hx; subst other;
    apply negb_true_iff, String.eqb_neq; exact Hother.
Qed.

Lemma deleteSection_other_section_witness :
  let st := (mkState None [sectionRecord "s1" None 0; sectionRecord "s2" None 1]
                     [bindingRecord "b1" "s1" discussion true]
                     (Some "s1") false None)%string in
  let out := run (UseDocument.invoke
                    (fun render =>
                       UseDocument.deleteSection opts1 render "s2"%string (inr tt)))
                 st in
  activeSectionId (finalState out) = Some "s1"%string
  /\ UseDocumentSections.getSectionById (finalState out) "s1"%string
     = Some (sectionRecord "s1"%string None 0).
Proof.
  intros st out.
  destruct (deleteSection_other_section opts1 st "s2"%string)
    as (Hfocus & _ & _ & _ & _ & Hother).
  split.
  - apply Hfocus. discriminate.
  - exact (Hother "s1"%string ltac:(discriminate)).
Defined.

(** X12. A fulfilled [createSection] appends the new section to the flat
    list: it becomes one more child of its parent, every other child list
    is unchanged, and the root list is unchanged when it has a parent; a
    rejected one leaves the state as it was after its single request. *)
Theorem createSection_extends_tree :
  forall (opts : UseDocument.Options) (st : HookState)
         (data : UseDocumentSections.NewSection) (r_create : response Sec.t),
    let out := UseDocumentSections.createSection opts data r_create st in
    UseDocumentSections.sent out
    = [UseDocumentSections.CreateSection (UseDocument.documentId opts) data]
    /\ (forall section parentId,
          r_create = inr section ->
          Sec.parent_id section = Some parentId ->
          let before := SectionPanel.getChildren (sections st) parentId in
          let after := SectionPanel.getChildren (sections (UseDocumentSections.after out))
                                                parentId in
          In section after
          /\ Permutation after (section :: before)
          /\ (forall other, other <> parentId ->
                SectionPanel.getChildren (sections (UseDocumentSections.after out)) other
                = SectionPanel.getChildren (sections st) other)
          /\ (parentId <> EmptyString ->
                SectionPanel.sortedRoots (sections (UseDocumentSections.after out))
                = SectionPanel.sortedRoots (sections st)))
    /\ (forall err, r_create = inl err -> UseDocumentSections.after out = st).
Proof.
  intros opts st data r_create out. subst out.
  split; [destruct r_create; reflexivity|]. split.
  - intros section parentId -> Hparent before after. subst before after.
    unfold SectionPanel.getChildren, SectionPanel.sortedRoots,
           SectionPanel.rootSections. cbn.
    rewrite !filter_app_single, Hparent. simpl.
    rewrite String.eqb_refl.
    assert (Hperm : Permutation
              (Js.sort SectionPanel.byOrder
                 (filter (fun s => Js.strictEq (Sec.parent_id s) parentId) (sections st)
                  ++ [section]))
              (section :: Js.sort SectionPanel.byOrder
                 (filter (fun s => Js.strictEq (Sec.parent_id s) parentId) (sections st)))).
    { rewrite !sort_perm. rewrite Permutation_app_comm. reflexivity. }
    split; [|split; [exact Hperm|split]].
    + apply (Permutation_in _ (Permutation_sym Hperm)). now left.
    + intros other Hother. rewrite filter_app_single, Hparent. simpl.
      assert (H : (parentId =? other)%string = false)
        by (apply String.eqb_neq; congruence).
      now rewrite H.
    + intros Hnonempty.
      assert (H : (parentId =? EmptyString)%string = false)
        by (now apply String.eqb_neq).
      now rewrite H.
  - intros err ->. reflexivity.
Qed.

Lemma createSection_extends_tree_witness :
  let st := (mkState None [sectionRecord "s1" None 0; sectionRecord "s2" (Some "s1") 5]
                     [] None false None)%string in
  let section := (sectionRecord "s3" (Some "s1") 2)%string in
  let out := (UseDocumentSections.createSection opts1
                (UseDocumentSections.mkNewSection "1.2" "Risks" (Some "s1") (Some 2))
                (inr section) st)%string in
  In section (SectionPanel.getChildren
                (sections (UseDocumentSections.after out)) "s1"%string).
Proof.
  intros st section out.
  destruct (createSection_extends_tree opts1 st
              (UseDocumentSections.mkNewSection "1.2" "Risks" (Some "s1") (Some 2))%string
              (inr section)) as (_ & Hok & _).
  destruct (Hok section "s1"%string eq_refl eq_refl) as (Hin & _).
  exact Hin.
Defined.

(** X13. A fulfilled [updateSection] rewrites the list in place: the list
    keeps its length, a section with another id stays at its position
    unchanged, a section with the given id is overlaid with the members the
    response carries, and when the response carries no other id the sequence
    of ids is unchanged; bindings and focus are not touched. A rejected one
    leaves the state as it was. *)
Theorem updateSection_in_place :
  forall (opts : UseDocument.Options) (st : HookState) (sectionId : string)
         (data : UseDocumentSections.SectionJson)
         (r_update : response UseDocumentSections.SectionJson),
    let out := UseDocumentSections.updateSection opts sectionId data r_update st in
    (forall updated,
        r_update = inr updated ->
        List.length (sections (UseDocumentSections.after out))
        = List.length (sections st)
        /\ (forall i s,
              nth_error (sections st) i = Some s ->
              nth_error (sections (UseDocumentSections.after out)) i
              = Some (if (Sec.id s =? sectionId)%string
                      then UseDocumentSections.spread s updated else s))
        /\ (UseDocumentSections.j_id updated = None
            \/ UseDocumentSections.j_id updated = Some sectionId ->
            map Sec.id (sections (UseDocumentSections.after out))
            = map Sec.id (sections st))
        /\ activeBindings (UseDocumentSections.after out) = activeBindings st
        /\ activeSectionId (UseDocumentSections.after out) = activeSectionId st)
    /\ (forall err, r_update = inl err -> UseDocumentSections.after out = st).
Proof.
  intros opts st sectionId data r_update out. subst out. split.
  - intros updated ->. cbn.
    split; [apply length_map|]. split; [|split; [|split; reflexivity]].
    + intros i s Hi. now rewrite nth_error_map, Hi.
    + intros Hid. rewrite map_map. apply map_ext_in. intros s _.
      destruct (String.eqb_spec (Sec.id s) sectionId) as [Heq|]; [|reflexivity].
      unfold UseDocumentSections.spread. simpl.
      destruct Hid as [-> | ->]; [reflexivity | now symmetry].
  - intros err ->. reflexivity.
Qed.

Lemma updateSection_in_place_witness :
  let st := (mkState None [sectionRecord "s1" None 0; sectionRecord "s2" (Some "s1") 5]
                     [] None false None)%string in
  let updated := (UseDocumentSections.mkSectionJson (Some "s2") None None
                    (Some "Goals") None (Some 1) (Some approved) None None)%string in
  let out := UseDocumentSections.updateSection opts1 "s2"%string updated
               (inr updated) st in
  map Sec.id (sections (UseDocumentSections.after out)) = ["s1"; "s2"]%string
  /\ nth_error (sections (UseDocumentSections.after out)) 1
     = Some (Sec.mk "s2" "doc-1" "s2" "Goals" (Some "s1") 1 approved None false)%string.
Proof.
  intros st updated out.
  destruct (updateSection_in_place opts1 st "s2"%string updated (inr updated))
    as [Hok _].
  destruct (Hok updated eq_refl) as (_ & Hnth & Hids & _).
  split.
  - apply Hids. right. reflexivity.
  - exact (Hnth 1%nat _ eq_refl).
Defined.

(* ===================================================================== *)
(** * Properties of the rows drawn by [SectionPanel]                       *)
(* ===================================================================== *)

Lemma mapM_some {A B} (f : A -> option B) (l : list A) :
  (forall a, In a l -> exists b, f a = Some b) ->
  exists bs, PanelView.mapM f l = Some bs.
Proof.
  induction l as [|a l IH]; intros H; simpl.
  - now exists [].
  - destruct (H a (or_introl eq_refl)) as [b ->].
    destruct IH as [bs ->]; [intros x Hx; apply H; now right|].
    now exists (b :: bs).
Qed.

Lemma mapM_ext {A B} (f g : A -> option B) (l : list A) :
  (forall a, In a l -> forall b, f a = Some b -> g a = Some b) ->
  forall bs, PanelView.mapM f l = Some bs -> PanelView.mapM g l = Some bs.
Proof.
  induction l as [|a l IH]; intros H bs; simpl; [trivial|].
  destruct (f a) as [b|] eqn:Hf; [|discriminate].
  destruct (PanelView.mapM f l) as [bs'|] eqn:Hm; [|discriminate].
  intros [= <-].
  rewrite (H a (or_introl eq_refl) b Hf).
  rewrite (IH (fun x Hx => H x (or_intror Hx)) bs' eq_refl). reflexivity.
Qed.

Lemma mapM_In {A B} (f : A -> option (list B)) (l : list A) :
  forall bs, PanelView.mapM f l = Some bs ->
  forall r, In r (List.concat bs) ->
  exists a b, In a l /\ f a = Some b /\ In r b.
Proof.
  induction l as [|a l IH]; intros bs; simpl.
  - intros [= <-] r [].
  - destruct (f a) as [b|] eqn:Hf; [|discriminate].
    destruct (PanelView.mapM f l) as [bs'|] eqn:Hm; [|discriminate].
    intros [= <-] r Hr. simpl in Hr. apply in_app_or in Hr as [Hr|Hr].
    + exists a, b. auto.
    + destruct (IH bs' eq_refl r Hr) as (a' & b' & Ha & Hb & Hrb).
      exists a', b'. auto.
Qed.

Lemma mapM_map {A B} (f : A -> option B) (g : A -> B) (l : list A) :
  (forall a, In a l -> f a = Some (g a)) ->
  PanelView.mapM f l = Some (map g l).
Proof.
  induction l as [|a l IH]; intros H; simpl; [reflexivity|].
  rewrite (H a (or_introl eq_refl)), IH; [reflexivity|].
  intros x Hx. apply H. now right.
Qed.

Section Ancestry.
Variable sections : list Sec.t.
Hypothesis unique_ids : NoDup (map Sec.id sections).
Hypothesis nonempty_ids : forall s, In s sections -> Sec.id s <> EmptyString.

Lemma same_id_same_section (a b : Sec.t) :
  In a sections -> In b sections -> Sec.id a = Sec.id b -> a = b.
Proof.
  clear nonempty_ids. induction sections as [|x l IH]; [intros []|].
  inversion unique_ids as [|? ? Hnotin Hnodup]; subst.
  intros [<-|Ha] [<-|Hb] Hid.
  - reflexivity.
  - exfalso. apply Hnotin. rewrite Hid. now apply in_map.
  - exfalso. apply Hnotin. rewrite <- Hid. now apply in_map.
  - now apply IH.
Qed.

Lemma chain_incl (path : list Sec.t) :
  PanelView.chain sections path -> incl path sections.
Proof.
  induction 1 as [r Hr _ | c p path _ IH Hc _].
  - intros x [<-|[]]. exact Hr.
  - intros x [<-|Hx]; [exact Hc | now apply IH].
Qed.

Lemma chain_suffix (l1 : list Sec.t) (x : Sec.t) (l2 : list Sec.t) :
  PanelView.chain sections (l1 ++ x :: l2) -> PanelView.chain sections (x :: l2).
Proof.
  induction l1 as [|a l1 IH]; simpl; [trivial|].
  intros H. apply IH.
  inversion H as [r Hr Hf Heq | c p path Hch Hc Hp Heq].
  - destruct l1; discriminate.
  - exact Hch.
Qed.

(** A section has one ancestry: two paths to the same section are equal. *)
Lemma chain_same_head (x : Sec.t) (t1 : list Sec.t) :
  PanelView.chain sections (x :: t1) ->
  forall t2, PanelView.chain sections (x :: t2) -> t1 = t2.
Proof.
  revert x. induction t1 as [|p1 t1 IH]; intros x H1 t2 H2.
  - inversion H1 as [r Hr Hfalsy |]; subst.
    inversion H2 as [|c p2 path Hch Hc Hp]; subst; [reflexivity|].
    exfalso. rewrite Hp in Hfalsy. simpl in Hfalsy.
    apply negb_false_iff, String.eqb_eq in Hfalsy.
    apply (nonempty_ids p2); [|exact Hfalsy].
    apply (chain_incl _ Hch). now left.
  - inversion H1 as [|c p path Hch1 Hc1 Hp1]; subst.
    inversion H2 as [r Hr Hfalsy | c p2 path2 Hch2 Hc2 Hp2]; subst.
    + exfalso. rewrite Hp1 in Hfalsy. simpl in Hfalsy.
      apply negb_false_iff, String.eqb_eq in Hfalsy.
      apply (nonempty_ids p1); [|exact Hfalsy].
      apply (chain_incl _ Hch1). now left.
    + assert (p1 = p2).
      { apply same_id_same_section.
        - apply (chain_incl _ Hch1). now left.
        - apply (chain_incl _ Hch2). now left.
        - congruence. }
      subst p2. f_equal. exact (IH p1 Hch1 _ Hch2).
Qed.

Lemma chain_NoDup (path : list Sec.t) :
  PanelView.chain sections path -> NoDup path.
Proof.
  induction 1 as [r _ _ | c p path Hch IH Hc Hp].
  - constructor; [intros [] | constructor].
  - constructor; [|exact IH].
    intros Hin. apply in_split in Hin as (l1 & l2 & Heq).
    assert (Hsuffix : PanelView.chain sections (c :: l2)).
    { apply (chain_suffix l1). rewrite <- Heq. exact Hch. }
    assert (Hfull : PanelView.chain sections (c :: p :: path))
      by now constructor.
    pose proof (chain_same_head c _ Hfull _ Hsuffix) as Hsame.
    apply (f_equal (@List.length Sec.t)) in Heq.
    rewrite <- Hsame, length_app in Heq. simpl in Heq. lia.
Qed.

Lemma chain_length (path : list Sec.t) :
  PanelView.chain sections path -> (List.length path <= List.length sections)%nat.
Proof.
  intros H. apply NoDup_incl_length; [now apply chain_NoDup | now apply chain_incl].
Qed.

End Ancestry.

Lemma renderSection_step
    (sections : list Sec.t) (bindings : list Binding.t) (focus : option string)
    (expanded : PanelView.StringSet) (fuel : nat) (section : Sec.t) (depth : nat) :
  PanelView.renderSection sections bindings focus expanded (S fuel) section depth
  = if PanelView.hasChildren sections section
       && PanelView.has expanded (Sec.id section)
    then match PanelView.mapM
                 (fun child => PanelView.renderSection sections bindings focus expanded
                                 fuel child (S depth))
                 (SectionPanel.getChildren sections (Sec.id section)) with
         | Some rows =>
             Some (PanelView.rowOf sections bindings focus expanded section depth
                   :: List.concat rows)
         | None => None
         end
    else Some [PanelView.rowOf sections bindings focus expanded section depth].
Proof. reflexivity. Qed.

(** More fuel never changes a result. *)
Lemma renderSection_more_fuel
    (sections : list Sec.t) (bindings : list Binding.t) (focus : option string)
    (expanded : PanelView.StringSet) (fuel : nat) :
  forall section depth rows,
    PanelView.renderSection sections bindings focus expanded fuel section depth
    = Some rows ->
    PanelView.renderSection sections bindings focus expanded (S fuel) section depth
    = Some rows.
Proof.
  induction fuel as [|fuel IH]; intros section depth rows H; [discriminate H|].
  rewrite renderSection_step in H. rewrite renderSection_step.
  destruct (_ && _); [|exact H].
  destruct (PanelView.mapM _ _) as [rs|] eqn:Hm; [|discriminate H].
  erewrite mapM_ext; [exact H | | exact Hm].
  intros child _ b Hb. now apply IH.
Qed.

Lemma renderSection_fuel_le
    (sections : list Sec.t) (bindings : list Binding.t) (focus : option string)
    (expanded : PanelView.StringSet) (fuel fuel' : nat) :
  (fuel <= fuel')%nat ->
  forall section depth rows,
    PanelView.renderSection sections bindings focus expanded fuel section depth
    = Some rows ->
    PanelView.renderSection sections bindings focus expanded fuel' section depth
    = Some rows.
Proof.
  induction 1 as [|fuel' _ IH]; intros section depth rows H; [exact H|].
  apply renderSection_more_fuel. now apply IH.
Qed.

(** Below a path from a root, rendering needs at most as much fuel as
    there are sections left off the path. *)
Lemma renderSection_total
    (sections : list Sec.t) (bindings : list Binding.t) (focus : option string)
    (expanded : PanelView.StringSet) :
  NoDup (map Sec.id sections) ->
  (forall s, In s sections -> Sec.id s <> EmptyString) ->
  forall fuel section path depth,
    PanelView.chain sections (section :: path) ->
    (List.length sections < fuel + List.length (section :: path))%nat ->
    exists rows,
      PanelView.renderSection sections bindings focus expanded fuel section depth
      = Some rows.
Proof.
  intros Hunique Hnonempty.
  induction fuel as [|fuel IH]; intros section path depth Hchain Hfuel.
  - pose proof (chain_length sections Hunique Hnonempty _ Hchain). simpl in *. lia.
  - rewrite renderSection_step.
    destruct (_ && _); [|eexists; reflexivity].
    destruct (mapM_some
                (fun child => PanelView.renderSection sections bindings focus expanded
                                fuel child (S depth))
                (SectionPanel.getChildren sections (Sec.id section))) as [rs ->].
    + intros child Hchild. apply getChildren_In in Hchild as [Hin Hparent].
      apply (IH child (section :: path)).
      * now constructor.
      * simpl in *. lia.
    + eexists. reflexivity.
Qed.

(** X14. Drawing the panel terminates when the section ids are distinct
    and none is empty: with a bound of as many nested calls as there are
    sections the rows are produced, whatever is expanded, and a larger
    bound gives the same rows. *)
Theorem panelRows_terminates :
  forall (sections : list Sec.t) (bindings : list Binding.t)
         (focus : option string) (expanded : PanelView.StringSet),
    NoDup (map Sec.id sections) ->
    (forall s, In s sections -> Sec.id s <> EmptyString) ->
    exists rows,
      forall fuel, (List.length sections <= fuel)%nat ->
        PanelView.panelRows sections bindings focus expanded fuel = Some rows.
Proof.
  intros sections bindings focus expanded Hunique Hnonempty.
  unfold PanelView.panelRows.
  destruct (List.length sections =? 0)%nat; [now exists []|].
  destruct (mapM_some
              (fun section => PanelView.renderSection sections bindings focus expanded
                                (List.length sections) section 0)
              (SectionPanel.sortedRoots sections)) as [rs Hrs].
  - intros root Hroot.
    apply (renderSection_total sections bindings focus expanded Hunique Hnonempty
             _ root []).
    + apply rootSections_In in Hroot as [Hin Hfalsy]. constructor; [exact Hin|].
      apply falsy_parent in Hfalsy. now apply negb_true_iff in Hfalsy.
    + simpl. lia.
  - exists (List.concat rs). intros fuel Hfuel.
    erewrite mapM_ext; [reflexivity | | exact Hrs].
    intros root _ b Hb. now apply (renderSection_fuel_le _ _ _ _ _ _ Hfuel).
Qed.

Lemma panelRows_terminates_witness :
  exists rows,
    forall fuel, (3 <= fuel)%nat ->
      PanelView.panelRows
        [sectionRecord "s1" None 0; sectionRecord "s2" (Some "s1") 0;
         sectionRecord "s3" (Some "s2") 0]%string
        [] None ["s1"; "s2"]%string fuel = Some rows.
Proof.
  apply (panelRows_terminates
           [sectionRecord "s1" None 0; sectionRecord "s2" (Some "s1") 0;
            sectionRecord "s3" (Some "s2") 0]%string
           [] None ["s1"; "s2"]%string).
  - repeat constructor; simpl; intuition discriminate.
  - intros s [<-|[<-|[<-|[]]]]; discriminate.
Defined.

(** Two sections sharing an id, one the parent of the other: once that id
    is expanded, no bound is enough. *)
Example panelRows_duplicate_id_diverges :
  forall fuel,
    PanelView.panelRows
      [sectionRecord "a" None 0; sectionRecord "a" (Some "a") 0]%string
      [] None ["a"]%string fuel = None.
Proof.
  intros fuel. unfold PanelView.panelRows. simpl.
  destruct fuel as [|fuel]; [reflexivity|].
  rewrite renderSection_step. simpl.
  assert (H : forall depth,
             PanelView.renderSection
               [sectionRecord "a" None 0; sectionRecord "a" (Some "a") 0]%string
               [] None ["a"]%string fuel
               (sectionRecord "a" (Some "a") 0)%string depth = None).
  { induction fuel as [|fuel IH]; intros depth; [reflexivity|].
    rewrite renderSection_step. simpl. now rewrite IH. }
  now rewrite H.
Qed.

(** Every row a call of [renderSection] produces is the row of a listed
    section: the section rendered, or a section whose parent is listed and
    expanded. *)
Lemma renderSection_rows
    (sections : list Sec.t) (bindings : list Binding.t) (focus : option string)
    (expanded : PanelView.StringSet) :
  forall fuel section depth rows,
    In section sections ->
    PanelView.renderSection sections bindings focus expanded fuel section depth
    = Some rows ->
    forall row, In row rows ->
    exists r k,
      row = PanelView.rowOf sections bindings focus expanded r k
      /\ In r sections
      /\ ((r = section /\ k = depth)
          \/ ((depth < k)%nat
              /\ exists p, In p sections
                           /\ Sec.parent_id r = Some (Sec.id p)
                           /\ PanelView.has expanded (Sec.id p) = true)).
Proof.
  induction fuel as [|fuel IH]; intros section depth rows Hin H row Hrow;
    [discriminate H|].
  rewrite renderSection_step in H.
  destruct (_ && _) eqn:Hcond.
  - apply andb_true_iff in Hcond as [_ Hexp].
    destruct (PanelView.mapM _ _) as [rs|] eqn:Hm; [|discriminate H].
    injection H as <-. destruct Hrow as [<-|Hrow].
    + exists section, depth. auto.
    + destruct (mapM_In _ _ _ Hm row Hrow) as (child & rowsc & Hchild & Hrc & Hrowc).
      apply getChildren_In in Hchild as [Hcin Hparent].
      destruct (IH child (S depth) rowsc Hcin Hrc row Hrowc)
        as (r & k & -> & Hr & [[-> ->] | [Hk Hp]]).
      * exists child, (S depth). split; [reflexivity|]. split; [exact Hcin|].
        right. split; [lia|]. exists section. auto.
      * exists r, k. split; [reflexivity|]. split; [exact Hr|].
        right. split; [lia | exact Hp].
  - injection H as <-. destruct Hrow as [<-|[]].
    exists section, depth. auto.
Qed.

Lemma panelRows_rows
    (sections : list Sec.t) (bindings : list Binding.t) (focus : option string)
    (expanded : PanelView.StringSet) (fuel : nat) (rows : list PanelView.Row) :
  PanelView.panelRows sections bindings focus expanded fuel = Some rows ->
  forall row, In row rows ->
  exists r k,
    row = PanelView.rowOf sections bindings focus expanded r k
    /\ In r sections
    /\ ((k = 0%nat /\ Js.truthy (Sec.parent_id r) = false)
        \/ ((0 < k)%nat
            /\ exists p, In p sections
                         /\ Sec.parent_id r = Some (Sec.id p)
                         /\ PanelView.has expanded (Sec.id p) = true)).
Proof.
  unfold PanelView.panelRows.
  destruct (List.length sections =? 0)%nat; [intros [= <-] row []|].
  destruct (PanelView.mapM _ _) as [rs|] eqn:Hm; [|discriminate].
  intros [= <-] row Hrow.
  destruct (mapM_In _ _ _ Hm row Hrow) as (root & rowsr & Hroot & Hrr & Hrowr).
  apply rootSections_In in Hroot as [Hin Hfalsy].
  destruct (renderSection_rows sections bindings focus expanded fuel root 0 rowsr
              Hin Hrr row Hrowr) as (r & k & -> & Hr & [[-> ->] | Hdeep]).
  - exists root, 0%nat. split; [reflexivity|]. split; [exact Hin|]. left.
    split; [reflexivity|]. apply falsy_parent in Hfalsy.
    now apply negb_true_iff in Hfalsy.
  - exists r, k. auto.
Qed.

Lemma concat_singletons {A B} (f : A -> B) (l : list A) :
  List.concat (map (fun a => [f a]) l) = map f l.
Proof. induction l as [|a l IH]; simpl; [reflexivity | now rewrite IH]. Qed.

(** X15. With nothing expanded, which is how the panel starts, exactly the
    root sections are drawn, in ascending [order], each at margin 0; child
    sections are not drawn at all. *)
Theorem panel_collapsed_shows_roots :
  forall (sections : list Sec.t) (bindings : list Binding.t)
         (focus : option string) (fuel : nat),
    PanelView.panelRows sections bindings focus [] (S fuel)
    = Some (map (fun root => PanelView.rowOf sections bindings focus [] root 0)
                (SectionPanel.sortedRoots sections))
    /\ (forall row,
          In row (map (fun root => PanelView.rowOf sections bindings focus [] root 0)
                      (SectionPanel.sortedRoots sections)) ->
          PanelView.marginLeft row = 0
          /\ Js.truthy (Sec.parent_id (PanelView.rowSection row)) = false).
Proof.
  intros sections bindings focus fuel. split.
  - unfold PanelView.panelRows.
    destruct (List.length sections =? 0)%nat eqn:Hlen.
    + apply Nat.eqb_eq, length_zero_iff_nil in Hlen. subst sections. reflexivity.
    + rewrite (mapM_map _ (fun root => [PanelView.rowOf sections bindings focus [] root 0])).
      * simpl. now rewrite concat_singletons.
      * intros root _. rewrite renderSection_step. simpl.
        now rewrite andb_false_r.
  - intros row Hrow. apply in_map_iff in Hrow as (root & <- & Hroot).
    split; [reflexivity|].
    apply rootSections_In in Hroot as [_ Hfalsy].
    apply falsy_parent in Hfalsy. now apply negb_true_iff in Hfalsy.
Qed.

Lemma panel_collapsed_shows_roots_witness :
  let secs := [sectionRecord "s2" (Some "s1") 0; sectionRecord "s1" None 0]%string in
  PanelView.panelRows secs [] None [] 1
  = Some [PanelView.rowOf secs [] None [] (sectionRecord "s1" None 0)%string 0]
  /\ PanelView.marginLeft
       (PanelView.rowOf secs [] None [] (sectionRecord "s1" None 0)%string 0) = 0.
Proof.
  intros secs.
  destruct (panel_collapsed_shows_roots secs [] None 0) as [Hrows Hall].
  split; [exact Hrows|].
  apply Hall. now left.
Defined.



Lemma deleteSection_sections (opts : UseDocument.Options) (st : HookState)
    (sectionId : string) :
  sections (finalState (run (UseDocument.invoke
                               (fun render =>
                                  UseDocument.deleteSection opts render sectionId
                                    (inr tt))) st))
  = filter (fun s => negb (Sec.id s =? sectionId)%string) (sections st).
Proof.
  destruct opts as [documentId onError].
  unfold UseDocument.invoke, UseDocument.deleteSection, run, finalState.
  cbn [state].
  destruct (Js.strictEq (activeSectionId st) sectionId); reflexivity.
Qed.

(** X17. Deleting a section does not delete or move its children: they
    stay in the section list with their [parent_id], and from then on the
    panel draws none of them, whatever is expanded. *)
Theorem deleteSection_orphans_children :
  forall (opts : UseDocument.Options) (st : HookState) (parentId : string),
    parentId <> EmptyString ->
    let remaining :=
      sections (finalState (run (UseDocument.invoke
                                   (fun render =>
                                      UseDocument.deleteSection opts render parentId
                                        (inr tt))) st)) in
    (forall child,
        In child (sections st) -> Sec.parent_id child = Some parentId ->
        Sec.id child <> parentId ->
        In child remaining)
    /\ (forall bindings focus expanded fuel rows,
          PanelView.panelRows remaining bindings focus expanded fuel = Some rows ->
          forall row, In row rows ->
            Sec.parent_id (PanelView.rowSection row) <> Some parentId).
Proof.
  intros opts st parentId Hnonempty remaining. subst remaining.
  rewrite deleteSection_sections. split.
  - intros child Hin _ Hid. apply filter_In. split; [exact Hin|].
    now apply negb_true_iff, String.eqb_neq.
  - intros bindings focus expanded fuel rows Hrows row Hrow Hparent.
    destruct (panelRows_rows _ _ _ _ _ _ Hrows row Hrow)
      as (r & k & -> & Hr & [[_ Hfalsy] | [_ (p & Hp & Hrp & _)]]);
      simpl in Hparent.
    + rewrite Hparent in Hfalsy. simpl in Hfalsy.
      apply negb_false_iff, String.eqb_eq in Hfalsy. contradiction.
    + apply filter_In in Hp as [_ Hp].
      apply negb_true_iff, String.eqb_neq in Hp. congruence.
Qed.

Lemma deleteSection_orphans_children_witness :
  let st := (mkState None [sectionRecord "s1" None 0; sectionRecord "s2" (Some "s1") 0]
                     [] None false None)%string in
  let remaining :=
    sections (finalState (run (UseDocument.invoke
                                 (fun render =>
                                    UseDocument.deleteSection opts1 render "s1"%string
                                      (inr tt))) st)) in
  In (sectionRecord "s2" (Some "s1") 0)%string remaining
  /\ PanelView.panelRows remaining [] None ["s1"%string] 5 = Some [].
Proof.
  intros st remaining.
  destruct (deleteSection_orphans_children opts1 st "s1"%string ltac:(discriminate))
    as [Hstay _].
  split.
  - apply Hstay; [simpl; auto | reflexivity | discriminate].
  - reflexivity.
Defined.



Lemma has_delete (s : PanelView.StringSet) (x y : string) :
  PanelView.has (PanelView.delete s x) y
  = PanelView.has s y && negb (y =? x)%string.
Proof.
  unfold PanelView.has, PanelView.delete.
  induction s as [|z s IH]; simpl; [reflexivity|].
  destruct (String.eqb_spec z x) as [->|Hzx]; simpl.
  - rewrite IH. destruct (String.eqb_spec x y) as [->|Hxy]; simpl.
    + rewrite String.eqb_refl. simpl. now rewrite andb_false_r.
    + reflexivity.
  - rewrite IH. destruct (String.eqb_spec z y) as [->|Hzy]; simpl; [|reflexivity].
    apply String.eqb_neq in Hzx. now rewrite Hzx.
Qed.

Lemma has_add (s : PanelView.StringSet) (x y : string) :
  PanelView.has (PanelView.add s x) y = PanelView.has s y || (x =? y)%string.
Proof.
  unfold PanelView.add.
  destruct (PanelView.has s x) eqn:Hx.
  - destruct (String.eqb_spec x y) as [->|]; [|now rewrite orb_false_r].
    now rewrite Hx.
  - unfold PanelView.has. rewrite existsb_app. simpl. now rewrite orb_false_r.
Qed.

Lemma has_toggle (s : PanelView.StringSet) (x y : string) :
  PanelView.has (PanelView.toggleExpanded s x) y
  = if (x =? y)%string then negb (PanelView.has s x) else PanelView.has s y.
Proof.
  unfold PanelView.toggleExpanded.
  destruct (PanelView.has s x) eqn:Hx.
  - rewrite has_delete. rewrite (String.eqb_sym y x).
    destruct (String.eqb_spec x y) as [->|]; simpl.
    + now rewrite andb_false_r.
    + now rewrite andb_true_r.
  - rewrite has_add.
    destruct (String.eqb_spec x y) as [->|]; simpl.
    + now rewrite orb_true_r.
    + now rewrite orb_false_r.
Qed.

(** X19. [toggleExpanded] flips the expansion of the section clicked and of
    no other, so clicking the same toggle twice restores what every section
    had; and the set never holds an id twice. *)
Theorem toggleExpanded_flips_one :
  forall (expanded : PanelView.StringSet) (sectionId : string),
    PanelView.has (PanelView.toggleExpanded expanded sectionId) sectionId
    = negb (PanelView.has expanded sectionId)
    /\ (forall other, other <> sectionId ->
          PanelView.has (PanelView.toggleExpanded expanded sectionId) other
          = PanelView.has expanded other)
    /\ (forall any,
          PanelView.has (PanelView.toggleExpanded
                           (PanelView.toggleExpanded expanded sectionId) sectionId) any
          = PanelView.has expanded any)
    /\ (NoDup expanded -> NoDup (PanelView.toggleExpanded expanded sectionId)).
Proof.
  intros expanded sectionId. split; [|split; [|split]].
  - now rewrite has_toggle, String.eqb_refl.
  - intros other Hother. rewrite has_toggle.
    destruct (String.eqb_spec sectionId other); [congruence | reflexivity].
  - intros any. rewrite !has_toggle, String.eqb_refl.
    destruct (String.eqb_spec sectionId any) as [->|]; [|reflexivity].
    apply negb_involutive.
  - intros Hnodup. unfold PanelView.toggleExpanded.
    destruct (PanelView.has expanded sectionId) eqn:Hhas.
    + now apply NoDup_filter.
    + unfold PanelView.add. rewrite Hhas.
      apply NoDup_app; [exact Hnodup | repeat constructor; intros [] |].
      intros z Hz [Heq|[]]. subst z.
      assert (PanelView.has expanded sectionId = true); [|congruence].
      apply existsb_exists. exists sectionId.
      split; [exact Hz | apply String.eqb_refl].
Qed.

Lemma toggleExpanded_flips_one_witness :
  PanelView.has (PanelView.toggleExpanded ["s1"; "s2"]%string "s1"%string) "s2"%string
  = true
  /\ NoDup (PanelView.toggleExpanded ["s1"; "s2"]%string "s3"%string).
Proof.
  destruct (toggleExpanded_flips_one ["s1"; "s2"]%string "s1"%string)
    as (_ & Hother & _).
  destruct (toggleExpanded_flips_one ["s1"; "s2"]%string "s3"%string)
    as (_ & _ & _ & Hnodup).
  split.
  - rewrite Hother; [reflexivity | discriminate].
  - apply Hnodup. repeat constructor; simpl; intuition discriminate.
Defined.

(* ===================================================================== *)
(** * Further properties: cursors, sorting, focus                          *)
(* ===================================================================== *)

Lemma orElse_nonempty (v : option string) (d : string) :
  d <> EmptyString -> Js.orElse v d <> EmptyString.
Proof.
  intros Hd. unfold Js.orElse. destruct v as [s|]; [|exact Hd].
  destruct (String.eqb_spec s EmptyString); assumption.
Qed.

(** X20. The cursors on screen are those of the participants that have a
    cursor, in the order of the participant list: the elements pair off, in
    order, with those participants, and each element is keyed by the
    connection id of its participant, placed at that participant's cursor
    coordinates, and labelled and coloured from that participant's info:
    the name, or "Anonymous" when the info or the name is missing or empty;
    the colour, or "#000" when the info or the colour is missing or empty,
    for the pointer and the name tag alike. So the name tag and the colour
    are never empty. *)
Theorem rendered_cursors_in_order :
  forall others : list Presence.Other,
    Forall2
      (fun (o : Presence.Other) (e : Presence.CursorElement) =>
         Presence.key e = Presence.connectionId o
         /\ (exists c, Presence.cursorOf o = Some c
                       /\ Presence.translateX e = Presence.x c
                       /\ Presence.translateY e = Presence.y c)
         /\ (Presence.info o = None ->
             Presence.label e = "Anonymous"%string
             /\ Presence.fill e = "#000"%string)
         /\ (forall i, Presence.info o = Some i ->
               Presence.label e
               = (if (Presence.name i =? EmptyString)%string
                  then "Anonymous"%string else Presence.name i)
               /\ Presence.fill e
                  = (if (Presence.color i =? EmptyString)%string
                     then "#000"%string else Presence.color i))
         /\ Presence.backgroundColor e = Presence.fill e
         /\ Presence.label e <> EmptyString
         /\ Presence.fill e <> EmptyString)
      (filter (fun o => match Presence.cursorOf o with
                        | Some _ => true
                        | None => false
                        end) others)
      (Presence.renderedCursors others).
Proof.
  intros others.
  unfold Presence.renderedCursors, Presence.CollaborationCursors.
  induction others as [|o others IH]; simpl; [constructor|].
  unfold Presence.renderCursor at 1.
  destruct (Presence.cursorOf o) as [c|] eqn:Hc; simpl; [|exact IH].
  constructor; [|exact IH]. simpl.
  split; [reflexivity|].
  split; [exists c; auto|].
  split; [intros ->; split; reflexivity|].
  split; [intros i ->; split; reflexivity|].
  split; [reflexivity|].
  split; apply orElse_nonempty; discriminate.
Qed.

Lemma rendered_cursors_in_order_witness :
  let ghost := Presence.mkOther 7
                 (Some (Presence.mkPresence (Some (Presence.mkCursor 3 4)) None))
                 None in
  let blank := Presence.mkOther 8
                 (Some (Presence.mkPresence (Some (Presence.mkCursor 5 6)) None))
                 (Some (Presence.mkUserInfo EmptyString "#81C784"%string None)) in
  let away := Presence.mkOther 9 (Some (Presence.mkPresence None None)) None in
  exists e, nth_error (Presence.renderedCursors [ghost; away; blank]) 1 = Some e
            /\ Presence.key e = 8 /\ Presence.label e = "Anonymous"%string
            /\ Presence.fill e = "#81C784"%string.
Proof.
  intros ghost blank away.
  pose proof (rendered_cursors_in_order [ghost; away; blank]) as H.
  simpl in H.
  inversion H as [|o1 e1 os1 es1 H1 Hrest1]; subst.
  inversion Hrest1 as [|o2 e2 os2 es2 H2 Hrest2]; subst.
  eexists. split; [reflexivity|].
  destruct H2 as (Hk2 & _ & _ & Hsome2 & _).
  destruct (Hsome2 _ eq_refl) as [Hl2 Hf2].
  repeat split; assumption.
Defined.

Lemma sort_sorted_id (l : list Sec.t) :
  ascending l -> Js.sort SectionPanel.byOrder l = l.
Proof.
  unfold ascending. induction 1 as [|x l Hs IH Hx]; [reflexivity|].
  simpl. rewrite IH. destruct l as [|y l]; [reflexivity|].
  simpl. unfold SectionPanel.byOrder.
  inversion Hx as [|? ? Hxy _]; subst.
  destruct (Z.leb_spec (Sec.order x - Sec.order y) 0); [reflexivity | lia].
Qed.

Lemma filter_filter_and {A} (p q : A -> bool) (l : list A) :
  filter p (filter q l) = filter (fun a => q a && p a) l.
Proof.
  induction l as [|a l IH]; simpl; [reflexivity|].
  destruct (q a); simpl; [destruct (p a)|]; now rewrite IH.
Qed.

(** X21. Sorting by [order] is stable and idempotent: the children with
    the same [order] appear among the children in the order they have in
    the flat list, and sorting a child list or the root list again, as each
    new render does, gives the same list. *)
Theorem children_sort_stable_idempotent :
  forall (secs : list Sec.t) (parentId : string) (k : Z),
    filter (fun s => Sec.order s =? k) (SectionPanel.getChildren secs parentId)
    = filter (fun s => Js.strictEq (Sec.parent_id s) parentId && (Sec.order s =? k)) secs
    /\ Js.sort SectionPanel.byOrder (SectionPanel.getChildren secs parentId)
       = SectionPanel.getChildren secs parentId
    /\ Js.sort SectionPanel.byOrder (SectionPanel.sortedRoots secs)
       = SectionPanel.sortedRoots secs.
Proof.
  intros secs parentId k. split; [|split].
  - unfold SectionPanel.getChildren. rewrite sort_stable. apply filter_filter_and.
  - apply sort_sorted_id, sort_ascending.
  - apply sort_sorted_id, sort_ascending.
Qed.

(** X22. [activateSection] does not look the section up: for an id that no
    listed section carries it still sends the create request and, when
    that is fulfilled, moves the focus to the id, so that [activeSectionId]
    names a section while [activeSection] is null. *)
Theorem activateSection_unlisted_section :
  forall (opts : UseDocument.Options) (st : HookState) (B : string)
         (bindingType : option BindingType) (messageId : option string)
         (r_deactivate r_create : response Binding.t) (created : Binding.t),
    (forall s, In s (sections st) -> Sec.id s <> B) ->
    let out := run (UseDocument.invoke
                      (fun render =>
                         UseDocument.activateSection opts render B bindingType
                           messageId r_deactivate r_create)) st in
    result out = inr created ->
    activeSectionId (finalState out) = Some B
    /\ UseDocumentSections.activeSection (finalState out) = None
    /\ In (CreateSectionBinding (UseDocument.documentId opts) B
             (match bindingType with Some t => t | None => discussion end) messageId)
          (requests out).
Proof.
  intros opts st B bindingType messageId r_deactivate r_create created Hunlisted
         out Hres.
  destruct (activateSection_fulfilled opts st B bindingType messageId
              r_deactivate r_create created Hres) as [-> Hst].
  fold out in Hst. split; [now rewrite Hst|]. split.
  - rewrite Hst. unfold UseDocumentSections.activeSection,
                        UseDocumentSections.getSectionById. cbn.
    destruct (negb (B =? EmptyString)%string); [|reflexivity].
    apply find_none. intros s Hs. apply String.eqb_neq. now apply Hunlisted.
  - clear Hst. revert Hres. subst out.
    destruct opts as [documentId onError]. unfold_activate.
    destruct (find _ (activeBindings st)) as [cb|];
      [destruct r_deactivate as [e|u]|]; destruct onError; simpl;
      intros Hres; try discriminate Hres; auto.
Qed.

Lemma activateSection_unlisted_section_witness :
  let st := (mkState None [sectionRecord "s1" None 0] [] None false None)%string in
  let out := run (UseDocument.invoke
                    (fun render =>
                       UseDocument.activateSection opts1 render "ghost"%string None None
                         (inl (Js.NonError "unused"%string))
                         (inr (bindingRecord "b9" "ghost" discussion true)%string)))
                 st in
  activeSectionId (finalState out) = Some "ghost"%string
  /\ UseDocumentSections.activeSection (finalState out) = None.
Proof.
  intros st out.
  destruct (activateSection_unlisted_section opts1 st "ghost"%string None None
              (inl (Js.NonError "unused"%string))
              (inr (bindingRecord "b9" "ghost" discussion true)%string)
              (bindingRecord "b9" "ghost" discussion true)%string)
    as (H1 & H2 & _).
  - intros s [<-|[]]. discriminate.
  - reflexivity.
  - split; assumption.
Defined.


(** X24. Focus round trip: a fulfilled [activateSection(B)] whose new
    binding is an active binding on B, followed by a fulfilled
    [deactivateSection(B)], sends exactly one request for the second call,
    the deactivation of the new binding, and ends with no focus and no
    active binding on B. *)
Theorem activate_then_deactivate :
  forall (opts : UseDocument.Options) (st : HookState) (B : string)
         (bindingType : option BindingType) (messageId : option string)
         (r_deactivate r_create r_second : response Binding.t)
         (created : Binding.t),
    let first := run (UseDocument.invoke
                        (fun render =>
                           UseDocument.activateSection opts render B bindingType
                             messageId r_deactivate r_create)) st in
    result first = inr created ->
    Binding.section_id created = B ->
    Binding.is_active created = true ->
    let second := run (UseDocument.invoke
                         (fun render =>
                            UseDocument.deactivateSection opts render B r_second))
                      (finalState first) in
    result second = inr tt ->
    requests second
    = [UpdateSectionBinding (UseDocument.documentId opts) (Binding.id created) false]
    /\ activeSectionId (finalState second) = None
    /\ UseDocument.getActiveBinding (finalState second) B = None
    /\ (forall b, In b (activeBindings (finalState second)) ->
                  Binding.id b = Binding.id created -> Binding.is_active b = false).
Proof.
  intros opts st B bindingType messageId r_deactivate r_create r_second created
         first Hres Hsec Hact second Hres2.
  destruct (activateSection_fulfilled opts st B bindingType messageId
              r_deactivate r_create created Hres) as [_ Hst1].
  fold first in Hst1.
  assert (Hkeep : forall b, (Binding.section_id b =? B)%string && Binding.is_active b = true ->
                            negb (Binding.section_id b =? B)%string
                            || negb (Binding.is_active b) = false)
    by (intros b Hb; apply andb_true_iff in Hb as [-> ->]; reflexivity).
  assert (Hfound : UseDocument.getActiveBinding (finalState first) B = Some created).
  { rewrite Hst1. unfold UseDocument.getActiveBinding. cbn.
    rewrite find_app_l, find_filter_none by exact Hkeep.
    simpl. now rewrite Hsec, String.eqb_refl, Hact. }
  assert (Hone : activeFor B (activeBindings (finalState first)) = [created]).
  { rewrite Hst1. unfold activeFor. cbn.
    rewrite filter_app, filter_filter_nil by exact Hkeep.
    simpl. now rewrite Hsec, String.eqb_refl, Hact. }
  destruct (deactivateSection_fulfilled opts (finalState first) B r_second Hres2)
    as [Hst2 Hreq].
  fold second in Hst2, Hreq. rewrite Hfound in Hst2, Hreq.
  split; [exact Hreq|]. split; [|split].
  - rewrite Hst2, Hst1. cbn. now rewrite String.eqb_refl.
  - rewrite Hst2. unfold UseDocument.getActiveBinding. cbn.
    apply activeFor_nil_find.
    pose proof (activeFor_found_drops B created
                  (activeBindings (finalState first)) Hfound) as Hdrop.
    rewrite Hone in Hdrop.
    destruct (activeFor B (map _ (activeBindings (finalState first))));
      [reflexivity | simpl in Hdrop; lia].
  - rewrite Hst2. cbn. intros b Hb Hid.
    apply in_map_iff in Hb as (b0 & <- & _).
    destruct (String.eqb_spec (Binding.id b0) (Binding.id created)) as [|Hne];
      [reflexivity|].
    exfalso. apply Hne. exact Hid.
Qed.

Lemma activate_then_deactivate_witness :
  let st := (mkState None [sectionRecord "s1" None 0] [] None false None)%string in
  let created := (bindingRecord "b1" "s1" discussion true)%string in
  let first := run (UseDocument.invoke
                      (fun render =>
                         UseDocument.activateSection opts1 render "s1"%string None None
                           (inl (Js.NonError "unused"%string)) (inr created))) st in
  let second := run (UseDocument.invoke
                       (fun render =>
                          UseDocument.deactivateSection opts1 render "s1"%string
                            (inr (Binding.set_inactive created))))
                    (finalState first) in
  activeSectionId (finalState second) = None
  /\ UseDocument.getActiveBinding (finalState second) "s1"%string = None.
Proof.
  intros st created first second.
  destruct (activate_then_deactivate opts1 st "s1"%string None None
              (inl (Js.NonError "unused"%string)) (inr created)
              (inr (Binding.set_inactive created)) created
              eq_refl eq_refl eq_refl eq_refl) as (_ & H1 & H2 & _).
  split; assumption.
Defined.
